(** * maya_fk_gui: the Joint-Curve Tool, embedded and verified

    The module [maya_fk_gui.py] is a dialog of a 3D host application.  It
    reads the host's selection, picks a joint and a curve out of it and, on
    a button press, sends the host a fixed list of scene commands.

    The host application and the widget toolkit live outside the module.
    The host is an interface ([Host]): queries are functions of the scene,
    commands transform the scene and may raise.  Every call the module makes
    into the host is appended to a log, so that statements about "which
    calls, in which order" are statements about that log.  The dialog is a
    record of the widget properties the module sets. *)

From Stdlib Require Import String Ascii List Bool Arith ZArith Lia.
Import ListNotations.
Local Open Scope string_scope.
Local Open Scope list_scope.

(* ===================================================================== *)
(** ** Python values used by the module *)

(** [str.replace(old, new)]: every non-overlapping occurrence of [old],
    found left to right, is replaced by [new].  [skip] counts the characters
    of an occurrence just replaced that are still to be dropped. *)
Fixpoint replace_from (old new : string) (skip : nat) (s : string) : string :=
  match s with
  | EmptyString => EmptyString
  | String ch rest =>
      match skip with
      | S k => replace_from old new k rest
      | O =>
          if prefix old s
          then new ++ replace_from old new (String.length old - 1) rest
          else String ch (replace_from old new 0 rest)
      end
  end.

(** With an empty [old], Python puts [new] before every character and at
    the end. *)
Fixpoint intersperse_new (new s : string) : string :=
  match s with
  | EmptyString => new
  | String ch rest => new ++ String ch (intersperse_new new rest)
  end.

Definition str_replace (s old new : string) : string :=
  match old with
  | EmptyString => intersperse_new new s
  | String _ _ => replace_from old new 0 s
  end.

(** Truth value of a [str]-or-[None] value: [None] and the empty string
    are false. *)
Definition truthy (v : option string) : bool :=
  match v with
  | None => false
  | Some s => negb (s =? "")
  end.

(** The exceptions that can leave the module: a host command that raises,
    and indexing an empty list. *)
Inductive PyExn : Type :=
| RuntimeError
| IndexError.

Inductive outcome (A : Type) : Type :=
| Returned (a : A)
| Raised (e : PyExn).
Arguments Returned {A} a.
Arguments Raised {A} e.

(** Truth value of a list: the empty list is false. *)
Definition list_truthy {A : Type} (xs : list A) : bool :=
  match xs with
  | [] => false
  | _ :: _ => true
  end.

(** How an f-string prints a [str]-or-[None] value. *)
Definition format (v : option string) : string :=
  match v with
  | Some s => s
  | None => "None"
  end.

(** [xs[0]] *)
Definition index0 {A : Type} (xs : list A) : outcome A :=
  match xs with
  | x :: _ => Returned x
  | [] => Raised IndexError
  end.

Definition nl : string := String (ascii_of_nat 10) EmptyString.

(* ===================================================================== *)
(** ** The host application *)

(** One constructor per call the module makes into [maya.cmds], with the
    arguments it passes. *)
Inductive HostCall : Type :=
| CLsSelection                                   (* ls(selection=True) *)
| CObjectType (obj : string)                     (* objectType(obj) *)
| CWarning (msg : string)                        (* warning(msg) *)
| CMakeIdentity (obj : string)                   (* makeIdentity(obj, apply=True) *)
| CDeleteHistory (obj : string)                  (* delete(obj, constructionHistory=True) *)
| CRename (obj new_name : string)                (* rename(obj, new_name) *)
| CGroup (obj name : string)                     (* group(obj, name=name) *)
| CParentConstraint (src tgt : string) (maintainOffset : bool)
| CDelete (objs : list string)                   (* delete(objs) *)
| COrientConstraint (src tgt : string) (maintainOffset : bool)
| CPickWalkUp (obj : string).                    (* pickWalk(obj, direction='up') *)

(** The host interface.  A command returns the scene it leaves and its
    result, [None] when the host raises. *)
Class Host : Type := {
  scene : Type;
  ls_selection : scene -> list string;
  objectType : scene -> string -> string;
  makeIdentity : scene -> string -> scene * option unit;
  deleteHistory : scene -> string -> scene * option unit;
  rename : scene -> string -> string -> scene * option string;
  group : scene -> string -> string -> scene * option string;
  parentConstraint : scene -> string -> string -> bool -> scene * option (list string);
  delete : scene -> list string -> scene * option unit;
  orientConstraint : scene -> string -> string -> bool -> scene * option (list string);
  pickWalkUp : scene -> string -> scene * option (list string)
}.

(** Calls that only read the scene or print to the script editor. *)
Definition is_query (c : HostCall) : bool :=
  match c with
  | CLsSelection | CObjectType _ | CWarning _ => true
  | _ => false
  end.

Definition is_edit (c : HostCall) : bool := negb (is_query c).

Definition is_warning (c : HostCall) : bool :=
  match c with
  | CWarning _ => true
  | _ => false
  end.

(** The two queries about the selection. *)
Definition is_lookup (c : HostCall) : bool :=
  match c with
  | CLsSelection | CObjectType _ => true
  | _ => false
  end.

Definition is_constraint (c : HostCall) : bool :=
  match c with
  | CParentConstraint _ _ _ | COrientConstraint _ _ _ => true
  | _ => false
  end.

(** The host API function a call invokes. *)
Inductive HostFn : Type :=
| FLs | FObjectType | FWarning | FMakeIdentity | FDelete | FRename
| FGroup | FParentConstraint | FOrientConstraint | FPickWalk.

Definition fn_of (c : HostCall) : HostFn :=
  match c with
  | CLsSelection => FLs
  | CObjectType _ => FObjectType
  | CWarning _ => FWarning
  | CMakeIdentity _ => FMakeIdentity
  | CDeleteHistory _ => FDelete
  | CRename _ _ => FRename
  | CGroup _ _ => FGroup
  | CParentConstraint _ _ _ => FParentConstraint
  | CDelete _ => FDelete
  | COrientConstraint _ _ _ => FOrientConstraint
  | CPickWalkUp _ => FPickWalk
  end.

Definition HostFn_eqb (a b : HostFn) : bool :=
  match a, b with
  | FLs, FLs | FObjectType, FObjectType | FWarning, FWarning
  | FMakeIdentity, FMakeIdentity | FDelete, FDelete | FRename, FRename
  | FGroup, FGroup | FParentConstraint, FParentConstraint
  | FOrientConstraint, FOrientConstraint | FPickWalk, FPickWalk => true
  | _, _ => false
  end.

(** The functions of a call list, each once, in order of first use. *)
Fixpoint distinct_fns (seen : list HostFn) (cs : list HostCall) : list HostFn :=
  match cs with
  | [] => []
  | c :: rest =>
      if existsb (HostFn_eqb (fn_of c)) seen
      then distinct_fns seen rest
      else fn_of c :: distinct_fns (fn_of c :: seen) rest
  end.

(** The kinds of scene edit the specification names. *)
Inductive EditPhase : Type :=
| HistoryCleanup
| FreezeTransforms
| Renaming
| Grouping
| ConstraintSetup.

(** The temporary constraint's removal and the walk to the parent joint
    both serve the constraint setup. *)
Definition phase_of (c : HostCall) : option EditPhase :=
  match c with
  | CLsSelection | CObjectType _ | CWarning _ => None
  | CMakeIdentity _ => Some FreezeTransforms
  | CDeleteHistory _ => Some HistoryCleanup
  | CRename _ _ => Some Renaming
  | CGroup _ _ => Some Grouping
  | CParentConstraint _ _ _ | CDelete _ | COrientConstraint _ _ _
  | CPickWalkUp _ => Some ConstraintSetup
  end.


Fixpoint phases (cs : list HostCall) : list EditPhase :=
  match cs with
  | [] => []
  | c :: rest =>
      match phase_of c with
      | Some p => p :: phases rest
      | None => phases rest
      end
  end.


(* ===================================================================== *)
(** ** The dialog *)

Record QLabel : Type := { label_text : string }.

Record QPushButton : Type := { button_text : string; button_enabled : bool }.

Inductive QParent : Type :=
| NoParent
| MayaMainWindow.

(** [get_maya_window]: the host's main window, wrapped as a widget. *)
Definition get_maya_window : QParent := MayaMainWindow.

(** [JointCurveTool(QtWidgets.QDialog)]: the dialog's own properties and
    its four child widgets.  [modal] is the toolkit's [QDialog.modal]
    property, [visible] its [QWidget.visible]. *)
Record JointCurveTool : Type := {
  parent : QParent;
  windowTitle : string;
  geometry : Z * Z * Z * Z;
  visible : bool;
  modal : bool;
  info_label : QLabel;
  selected_label : QLabel;
  run_button : QPushButton;
  close_button : QPushButton
}.

(** A dialog as the toolkit constructs it: hidden, not modal, no title. *)
Definition QDialog_new (p : QParent) : JointCurveTool :=
  {| parent := p; windowTitle := ""; geometry := (0, 0, 640, 480)%Z;
     visible := false; modal := false;
     info_label := {| label_text := "" |};
     selected_label := {| label_text := "" |};
     run_button := {| button_text := ""; button_enabled := true |};
     close_button := {| button_text := ""; button_enabled := true |} |}.

Definition with_windowTitle (t : string) (g : JointCurveTool) : JointCurveTool :=
  {| parent := parent g; windowTitle := t; geometry := geometry g;
     visible := visible g; modal := modal g;
     info_label := info_label g; selected_label := selected_label g;
     run_button := run_button g; close_button := close_button g |}.

Definition with_geometry (r : Z * Z * Z * Z) (g : JointCurveTool) : JointCurveTool :=
  {| parent := parent g; windowTitle := windowTitle g; geometry := r;
     visible := visible g; modal := modal g;
     info_label := info_label g; selected_label := selected_label g;
     run_button := run_button g; close_button := close_button g |}.

Definition with_visible (b : bool) (g : JointCurveTool) : JointCurveTool :=
  {| parent := parent g; windowTitle := windowTitle g; geometry := geometry g;
     visible := b; modal := modal g;
     info_label := info_label g; selected_label := selected_label g;
     run_button := run_button g; close_button := close_button g |}.

Definition with_info_label (l : QLabel) (g : JointCurveTool) : JointCurveTool :=
  {| parent := parent g; windowTitle := windowTitle g; geometry := geometry g;
     visible := visible g; modal := modal g;
     info_label := l; selected_label := selected_label g;
     run_button := run_button g; close_button := close_button g |}.

Definition with_selected_label (l : QLabel) (g : JointCurveTool) : JointCurveTool :=
  {| parent := parent g; windowTitle := windowTitle g; geometry := geometry g;
     visible := visible g; modal := modal g;
     info_label := info_label g; selected_label := l;
     run_button := run_button g; close_button := close_button g |}.

Definition with_run_button (b : QPushButton) (g : JointCurveTool) : JointCurveTool :=
  {| parent := parent g; windowTitle := windowTitle g; geometry := geometry g;
     visible := visible g; modal := modal g;
     info_label := info_label g; selected_label := selected_label g;
     run_button := b; close_button := close_button g |}.

Definition with_close_button (b : QPushButton) (g : JointCurveTool) : JointCurveTool :=
  {| parent := parent g; windowTitle := windowTitle g; geometry := geometry g;
     visible := visible g; modal := modal g;
     info_label := info_label g; selected_label := selected_label g;
     run_button := run_button g; close_button := b |}.

(** [QPushButton.setEnabled] keeps the button's text. *)
Definition setEnabled (e : bool) (b : QPushButton) : QPushButton :=
  {| button_text := button_text b; button_enabled := e |}.

(** A shown modal dialog takes the input of the application's other
    windows; a modeless one does not. *)
Definition blocks_host (g : JointCurveTool) : bool := visible g && modal g.

(* ===================================================================== *)
(** ** Running the module against a host *)

Section Tool.
Context {host : Host}.

(** What a method of the dialog can touch: the host's scene, the dialog
    itself, and the log of host calls made so far. *)
Record State : Type := {
  st_scene : scene;
  st_gui : JointCurveTool;
  st_log : list HostCall
}.

(** A method runs from a state to a state and either returns or raises;
    what it did before raising stays done. *)
Definition M (A : Type) : Type := State -> State * outcome A.

Definition ret {A : Type} (a : A) : M A := fun st => (st, Returned a).

Definition bind {A B : Type} (m : M A) (k : A -> M B) : M B :=
  fun st =>
    match m st with
    | (st1, Returned a) => k a st1
    | (st1, Raised e) => (st1, Raised e)
    end.

Definition lift_outcome {A : Type} (o : outcome A) : M A := fun st => (st, o).

Notation "x <- m ;; k" := (bind m (fun x => k))
  (at level 61, m at next level, right associativity).
Notation "m ;; k" := (bind m (fun _ => k))
  (at level 61, right associativity).

Definition logged (c : HostCall) (st : State) : list HostCall := st_log st ++ [c].

(** A host query: logged, scene and dialog untouched. *)
Definition query {A : Type} (c : HostCall) (f : scene -> A) : M A :=
  fun st =>
    ({| st_scene := st_scene st; st_gui := st_gui st; st_log := logged c st |},
     Returned (f (st_scene st))).

(** A host command: logged, the scene replaced by the one the host leaves;
    raises when the host does. *)
Definition command {A : Type} (c : HostCall) (f : scene -> scene * option A) : M A :=
  fun st =>
    let (sc, r) := f (st_scene st) in
    ({| st_scene := sc; st_gui := st_gui st; st_log := logged c st |},
     match r with
     | Some a => Returned a
     | None => Raised RuntimeError
     end).

(** A change to the dialog's widgets. *)
Definition widget (f : JointCurveTool -> JointCurveTool) : M unit :=
  fun st =>
    ({| st_scene := st_scene st; st_gui := f (st_gui st); st_log := st_log st |},
     Returned tt).

(** *** [maya.cmds] as the module calls it *)

Definition cmds_ls_selection : M (list string) :=
  query CLsSelection ls_selection.

Definition cmds_objectType (obj : string) : M string :=
  query (CObjectType obj) (fun sc => objectType sc obj).

Definition cmds_warning (msg : string) : M unit :=
  query (CWarning msg) (fun _ => tt).

Definition cmds_makeIdentity (obj : string) : M unit :=
  command (CMakeIdentity obj) (fun sc => makeIdentity sc obj).

Definition cmds_delete_history (obj : string) : M unit :=
  command (CDeleteHistory obj) (fun sc => deleteHistory sc obj).

Definition cmds_rename (obj new_name : string) : M string :=
  command (CRename obj new_name) (fun sc => rename sc obj new_name).

Definition cmds_group (obj name : string) : M string :=
  command (CGroup obj name) (fun sc => group sc obj name).

Definition cmds_parentConstraint (src tgt : string) (mo : bool) : M (list string) :=
  command (CParentConstraint src tgt mo) (fun sc => parentConstraint sc src tgt mo).

Definition cmds_delete (objs : list string) : M unit :=
  command (CDelete objs) (fun sc => delete sc objs).

Definition cmds_orientConstraint (src tgt : string) (mo : bool) : M (list string) :=
  command (COrientConstraint src tgt mo) (fun sc => orientConstraint sc src tgt mo).

Definition cmds_pickWalk_up (obj : string) : M (list string) :=
  command (CPickWalkUp obj) (fun sc => pickWalkUp sc obj).

(** *** The dialog's methods *)

(** The loop of [identify_selection]: [objectType] is asked once for a
    joint and twice for anything else. *)
Fixpoint identify_loop (sel : list string) (sel_joint sel_curve : option string)
  : M (option string * option string) :=
  match sel with
  | [] => ret (sel_joint, sel_curve)
  | obj :: rest =>
      t <- cmds_objectType obj ;;
      if t =? "joint" then identify_loop rest (Some obj) sel_curve
      else
        t' <- cmds_objectType obj ;;
        if t' =? "transform" then identify_loop rest sel_joint (Some obj)
        else identify_loop rest sel_joint sel_curve
  end.

Definition identify_selection (sel : list string) : M (option string * option string) :=
  identify_loop sel None None.

Definition msg_must_select : string := "You must select one joint and one curve.".
Definition msg_must_include : string := "Selection must include one joint and one curve.".
Definition msg_warning : string := "Selection must contain one joint and one curve.".
Definition msg_success : string := "Tool executed successfully.".

Definition msg_selected (joint curve : string) : string :=
  "Selected Joint: " ++ joint ++ nl ++ "Selected Curve: " ++ curve.

Definition selected_label_setText (t : string) : M unit :=
  widget (with_selected_label {| label_text := t |}).

Definition info_label_setText (t : string) : M unit :=
  widget (with_info_label {| label_text := t |}).

Definition run_button_setEnabled (e : bool) : M unit :=
  widget (fun g => with_run_button (setEnabled e (run_button g)) g).

Definition update_selection : M unit :=
  sel <- cmds_ls_selection ;;
  if negb (list_truthy sel) || negb (Nat.eqb (List.length sel) 2) then
    selected_label_setText msg_must_select ;;
    run_button_setEnabled false
  else
    jc <- identify_selection sel ;;
    let (joint, curve) := jc in
    if truthy joint && truthy curve then
      selected_label_setText (msg_selected (format joint) (format curve)) ;;
      run_button_setEnabled true
    else
      selected_label_setText msg_must_include ;;
      run_button_setEnabled false.

(** The edits of [run_tool], after its validation. *)
Definition rig (sel_joint sel_curve : string) : M unit :=
  cmds_makeIdentity sel_curve ;;
  cmds_delete_history sel_curve ;;
  ctrl_name <- cmds_rename sel_curve (str_replace sel_joint "BIND" "CC") ;;
  grp_name <- cmds_group ctrl_name (str_replace ctrl_name "CC" "cc_GRP") ;;
  result <- cmds_parentConstraint sel_joint grp_name false ;;
  cmds_delete result ;;
  cmds_orientConstraint ctrl_name sel_joint false ;;
  walked <- cmds_pickWalk_up sel_joint ;;
  parent_joint <- lift_outcome (index0 walked) ;;
  cmds_parentConstraint parent_joint grp_name true ;;
  info_label_setText msg_success ;;
  update_selection.

Definition run_tool : M unit :=
  sel <- cmds_ls_selection ;;
  jc <- identify_selection sel ;;
  let (sel_joint, sel_curve) := jc in
  if negb (truthy sel_joint) || negb (truthy sel_curve) then
    cmds_warning msg_warning
  else
    match sel_joint, sel_curve with
    | Some joint, Some curve => rig joint curve
    | _, _ => ret tt            (* not reached: [None] is not truthy *)
    end.

(** [QDialog.close]: the dialog is hidden. *)
Definition close : M unit := widget (with_visible false).

(** [QDialog.show]: the dialog becomes visible; its modality is whatever
    it was. *)
Definition show : M unit := widget (with_visible true).

(** A click reaches the connected slot only while the button is enabled. *)
Definition click_run_button : M unit :=
  fun st => if button_enabled (run_button (st_gui st)) then run_tool st else ret tt st.

Definition click_close_button : M unit :=
  fun st => if button_enabled (close_button (st_gui st)) then close st else ret tt st.

Definition init_gui : M unit :=
  widget (with_info_label {| label_text := "Select one joint and one curve." |}) ;;
  widget (with_selected_label {| label_text := "No selection made." |}) ;;
  widget (with_run_button {| button_text := "Run Tool"; button_enabled := true |}) ;;
  widget (with_close_button {| button_text := "Close"; button_enabled := true |}) ;;
  update_selection.

(** [JointCurveTool.__init__], on the dialog the base class constructor
    leaves. *)
Definition JointCurveTool_init : M unit :=
  widget (with_windowTitle "Joint-Curve Tool") ;;
  widget (with_geometry (300, 300, 350, 200)%Z) ;;
  init_gui.

(** [show_tool], from a scene and the calls logged so far: a new dialog,
    a child of the host's main window, is initialised and shown. *)
Definition show_tool (sc : scene) (log : list HostCall) : State * outcome unit :=
  (JointCurveTool_init ;; show)
    {| st_scene := sc; st_gui := QDialog_new get_maya_window; st_log := log |}.

(** The calls a run added to the log. *)
Definition calls_of {A : Type} (m : M A) (st : State) : list HostCall :=
  skipn (List.length (st_log st)) (st_log (fst (m st))).

End Tool.

Arguments State : clear implicits.
Arguments M : clear implicits.

(* ===================================================================== *)
(** ** A small host to run the module on

    A scene of typed nodes, each with at most one parent, and a selection.
    Commands on a node that does not exist raise; a new name that is taken
    gets a digit appended; grouping and walking select their result;
    walking up from a root stays on it. *)

Module Flat.

Record Scene : Type := {
  nodes : list (string * string);          (* name, type *)
  parents : list (string * string);        (* child, parent *)
  selection : list string
}.

Fixpoint assoc (kvs : list (string * string)) (k : string) : option string :=
  match kvs with
  | [] => None
  | (k', v) :: rest => if k' =? k then Some v else assoc rest k
  end.

Definition exists_node (sc : Scene) (n : string) : bool :=
  match assoc (nodes sc) n with
  | Some _ => true
  | None => false
  end.

Definition on_node {A : Type} (sc : Scene) (n : string) (k : Scene * option A)
  : Scene * option A :=
  if exists_node sc n then k else (sc, None).

Definition fresh_name (sc : Scene) (n : string) : string :=
  if exists_node sc n then n ++ "1" else n.

Definition rename_in (old new : string) (n : string) : string :=
  if n =? old then new else n.

Definition add_node (sc : Scene) (n t : string) : Scene :=
  {| nodes := nodes sc ++ [(n, t)]; parents := parents sc;
     selection := selection sc |}.

Definition select (sc : Scene) (sel : list string) : Scene :=
  {| nodes := nodes sc; parents := parents sc; selection := sel |}.

Definition rename_node (sc : Scene) (old new : string) : Scene :=
  {| nodes := map (fun nt => (rename_in old new (fst nt), snd nt)) (nodes sc);
     parents := map (fun cp => (rename_in old new (fst cp),
                                rename_in old new (snd cp))) (parents sc);
     selection := map (rename_in old new) (selection sc) |}.

(** The group takes the node's place under the node's parent. *)
Definition group_node (sc : Scene) (n g : string) : Scene :=
  {| nodes := nodes sc ++ [(g, "transform")];
     parents := (n, g) ::
                map (fun cp => if fst cp =? n then (g, snd cp) else cp) (parents sc);
     selection := [g] |}.

Definition remove_nodes (sc : Scene) (objs : list string) : Scene :=
  let gone n := existsb (String.eqb n) objs in
  {| nodes := filter (fun nt => negb (gone (fst nt))) (nodes sc);
     parents := filter (fun cp => negb (gone (fst cp)) && negb (gone (snd cp)))
                       (parents sc);
     selection := filter (fun n => negb (gone n)) (selection sc) |}.

Definition constrain (sc : Scene) (src tgt kind : string)
  : Scene * option (list string) :=
  on_node sc src (on_node sc tgt
    (let c := fresh_name sc (tgt ++ "_" ++ kind ++ "1") in
     (add_node sc c kind, Some [c]))).

Definition walk_up (sc : Scene) (n : string) : string :=
  match assoc (parents sc) n with
  | Some p => p
  | None => n
  end.

#[export] Instance host : Host := {|
  scene := Scene;
  ls_selection := selection;
  objectType := fun sc n =>
    match assoc (nodes sc) n with Some t => t | None => "" end;
  makeIdentity := fun sc n => on_node sc n (sc, Some tt);
  deleteHistory := fun sc n => on_node sc n (sc, Some tt);
  rename := fun sc old new =>
    on_node sc old
      (let new' := fresh_name sc new in (rename_node sc old new', Some new'));
  group := fun sc n name =>
    on_node sc n
      (let name' := fresh_name sc name in (group_node sc n name', Some name'));
  parentConstraint := fun sc src tgt _ => constrain sc src tgt "parentConstraint";
  delete := fun sc objs =>
    if forallb (exists_node sc) objs then (remove_nodes sc objs, Some tt)
    else (sc, None);
  orientConstraint := fun sc src tgt _ => constrain sc src tgt "orientConstraint";
  pickWalkUp := fun sc n =>
    on_node sc n (select sc [walk_up sc n], Some [walk_up sc n])
|}.

(** An arm: two joints in a chain, a controller curve, a mesh and a
    material. *)
Definition arm_scene (sel : list string) : Scene :=
  {| nodes := [("shoulder_BIND", "joint"); ("elbow_BIND", "joint");
               ("curve1", "transform"); ("pCube1", "transform");
               ("lambert1", "lambert")];
     parents := [("elbow_BIND", "shoulder_BIND")];
     selection := sel |}.

(** The dialog opened by [show_tool] over a scene, before any click. *)
Definition opened (sc : Scene) : State host :=
  {| st_scene := sc;
     st_gui := st_gui (fst (show_tool sc []));
     st_log := [] |}.

(** The elbow joint and the curve selected. *)
Definition arm_selected : State host :=
  opened (arm_scene ["elbow_BIND"; "curve1"]).

(** The dialog opened on the elbow and the curve; the shoulder joint is
    added to the selection afterwards, the Run button still enabled. *)
Definition arm_crowded : State host :=
  {| st_scene := arm_scene ["elbow_BIND"; "shoulder_BIND"; "curve1"];
     st_gui := st_gui arm_selected;
     st_log := [] |}.

(** Only a joint and a material selected. *)
Definition arm_no_curve : State host :=
  opened (arm_scene ["elbow_BIND"; "lambert1"]).

(** The same host, except that the walk finds nothing and answers with an
    empty list. *)
Definition lost_host : Host := {|
  scene := Scene;
  ls_selection := selection;
  objectType := @objectType host;
  makeIdentity := @makeIdentity host;
  deleteHistory := @deleteHistory host;
  rename := @rename host;
  group := @group host;
  parentConstraint := @parentConstraint host;
  delete := @delete host;
  orientConstraint := @orientConstraint host;
  pickWalkUp := fun sc n => on_node sc n (select sc [], Some [])
|}.

(** The elbow joint and the curve selected, over that host. *)
Definition lost_selected : State lost_host :=
  @Build_State lost_host (arm_scene ["elbow_BIND"; "curve1"])
               (st_gui arm_selected) [].

(** The curve selected first, the elbow joint second. *)
Definition arm_reversed : State host :=
  opened (arm_scene ["curve1"; "elbow_BIND"]).

End Flat.

(* ===================================================================== *)
(** ** What the claims speak of *)

(** [Replaced old new s t]: [t] is [s] read left to right with every
    occurrence of [old] met on the way replaced by [new], the reading
    resumed behind the occurrence. *)
Inductive Replaced (old new : string) : string -> string -> Prop :=
| Replaced_end : Replaced old new "" ""
| Replaced_hit s t :
    Replaced old new s t -> Replaced old new (old ++ s) (new ++ t)
| Replaced_miss ch s t :
    prefix old (String ch s) = false ->
    Replaced old new s t -> Replaced old new (String ch s) (String ch t).

(** [old] is a substring of [s]. *)
Definition occurs (old s : string) : Prop :=
  exists pre post, s = (pre ++ old ++ post)%string.

Section Notions.
Context {host : Host}.

Definition has_type (sc : scene) (ty obj : string) : bool :=
  objectType sc obj =? ty.

(** The last element of a selection with a given host object type. *)
Fixpoint last_of_type (sc : scene) (ty : string) (sel : list string) : option string :=
  match sel with
  | [] => None
  | obj :: rest =>
      match last_of_type sc ty rest with
      | Some later => Some later
      | None => if has_type sc ty obj then Some obj else None
      end
  end.

(** [v] is the last element of [sel] of type [ty]: the element itself,
    with none of the type behind it, or [None] when [sel] has none. *)
Definition is_last_of_type (sc : scene) (ty : string) (sel : list string)
           (v : option string) : Prop :=
  match v with
  | Some obj =>
      exists before after,
        sel = before ++ obj :: after /\
        objectType sc obj = ty /\
        forall o, In o after -> objectType sc o <> ty
  | None => forall o, In o sel -> objectType sc o <> ty
  end.

Definition count_of_type (sc : scene) (ty : string) (sel : list string) : nat :=
  List.length (filter (has_type sc ty) sel).

Definition selected_joint (sc : scene) : option string :=
  last_of_type sc "joint" (ls_selection sc).

Definition selected_curve (sc : scene) : option string :=
  last_of_type sc "transform" (ls_selection sc).

(** The validation of [run_tool] and of [update_selection]'s second test. *)
Definition validates (sc : scene) : bool :=
  truthy (selected_joint sc) && truthy (selected_curve sc).

(** Host object names are not empty. *)
Definition named_selection (sc : scene) : Prop :=
  Forall (fun n => n <> "") (ls_selection sc).

(** The [objectType] queries of one pass of [identify_selection]. *)
Definition identify_calls (sc : scene) (sel : list string) : list HostCall :=
  flat_map (fun obj =>
              if has_type sc "joint" obj then [CObjectType obj]
              else [CObjectType obj; CObjectType obj]) sel.

(** The queries of [run_tool] up to its validation. *)
Definition validation_calls (sc : scene) : list HostCall :=
  CLsSelection :: identify_calls sc (ls_selection sc).

(** The queries of one [update_selection]. *)
Definition update_calls (sc : scene) : list HostCall :=
  CLsSelection ::
  (if Nat.eqb (List.length (ls_selection sc)) 2
   then identify_calls sc (ls_selection sc) else []).

Definition ready (sc : scene) : bool :=
  Nat.eqb (List.length (ls_selection sc)) 2 && validates sc.

(** The dialog after one [update_selection] over a scene. *)
Definition update_gui (sc : scene) (g : JointCurveTool) : JointCurveTool :=
  if negb (Nat.eqb (List.length (ls_selection sc)) 2) then
    with_run_button (setEnabled false (run_button g))
      (with_selected_label {| label_text := msg_must_select |} g)
  else if validates sc then
    with_run_button (setEnabled true (run_button g))
      (with_selected_label
         {| label_text := msg_selected (format (selected_joint sc))
                                       (format (selected_curve sc)) |} g)
  else
    with_run_button (setEnabled false (run_button g))
      (with_selected_label {| label_text := msg_must_include |} g).

Definition log_more (st : State host) (calls : list HostCall) : State host :=
  {| st_scene := st_scene st; st_gui := st_gui st; st_log := st_log st ++ calls |}.

(** The host accepts the nine commands of the rig, one after the other:
    the scenes it goes through, its answers, and the calls as sent. *)
Inductive rig_accepted (joint curve : string) (sc : scene)
  : scene -> list HostCall -> Prop :=
| rig_accepted_intro sc1 sc2 sc3 sc4 sc5 sc6 sc7 sc8 sc9
    ctrl_name grp_name result oriented parent_joint others constrained :
    makeIdentity sc curve = (sc1, Some tt) ->
    deleteHistory sc1 curve = (sc2, Some tt) ->
    rename sc2 curve (str_replace joint "BIND" "CC") = (sc3, Some ctrl_name) ->
    group sc3 ctrl_name (str_replace ctrl_name "CC" "cc_GRP") = (sc4, Some grp_name) ->
    parentConstraint sc4 joint grp_name false = (sc5, Some result) ->
    delete sc5 result = (sc6, Some tt) ->
    orientConstraint sc6 ctrl_name joint false = (sc7, Some oriented) ->
    pickWalkUp sc7 joint = (sc8, Some (parent_joint :: others)) ->
    parentConstraint sc8 parent_joint grp_name true = (sc9, Some constrained) ->
    rig_accepted joint curve sc sc9
      [CMakeIdentity curve;
       CDeleteHistory curve;
       CRename curve (str_replace joint "BIND" "CC");
       CGroup ctrl_name (str_replace ctrl_name "CC" "cc_GRP");
       CParentConstraint joint grp_name false;
       CDelete result;
       COrientConstraint ctrl_name joint false;
       CPickWalkUp joint;
       CParentConstraint parent_joint grp_name true].

End Notions.



Definition rig_phases : list EditPhase :=
  [FreezeTransforms; HistoryCleanup; Renaming; Grouping;
   ConstraintSetup; ConstraintSetup; ConstraintSetup; ConstraintSetup;
   ConstraintSetup].

Definition rig_fns : list HostFn :=
  [FMakeIdentity; FDelete; FRename; FGroup; FParentConstraint;
   FOrientConstraint; FPickWalk].

(** The host functions of the nine commands, call by call. *)
Definition rig_calls_fns : list HostFn :=
  [FMakeIdentity; FDelete; FRename; FGroup; FParentConstraint; FDelete;
   FOrientConstraint; FPickWalk; FParentConstraint].

(** What holds of the calls of a rig however far it gets: they start
    with the freeze and are an initial part of the nine commands. *)
Definition rig_prefix (curve : string) (calls : list HostCall) : Prop :=
  exists n later,
    1 <= n /\
    calls = CMakeIdentity curve :: later /\
    phases calls = firstn n rig_phases /\
    List.length (filter is_edit calls) = n /\
    List.length (filter is_constraint calls) <= 3.


(** [a] is one of the characters of [s]. *)
Fixpoint has_char (a : ascii) (s : string) : bool :=
  match s with
  | EmptyString => false
  | String c rest => if Ascii.eqb a c then true else has_char a rest
  end.

(** No character of [old] is a character of [new]. *)
Fixpoint chars_apart (old new : string) : bool :=
  match old with
  | EmptyString => true
  | String a rest => negb (has_char a new) && chars_apart rest new
  end.

Section MoreNotions.
Context {host : Host}.

(** What an edit of a validated run is aimed at: the freeze, the cleanup
    and the rename act on the identified curve, the walk starts from the
    identified joint, the orient constraint drives the joint, the plain
    parent constraint is driven by it; a warning is no part of it. *)
Definition aimed (joint curve : string) (call : HostCall) : Prop :=
  match call with
  | CLsSelection | CObjectType _ | CDelete _ => True
  | CWarning _ => False
  | CMakeIdentity obj | CDeleteHistory obj => obj = curve
  | CRename obj name => obj = curve /\ name = str_replace joint "BIND" "CC"
  | CGroup obj name => name = str_replace obj "CC" "cc_GRP"
  | CParentConstraint src _ maintainOffset =>
      maintainOffset = false -> src = joint
  | COrientConstraint _ tgt maintainOffset =>
      tgt = joint /\ maintainOffset = false
  | CPickWalkUp obj => obj = joint
  end.

(** The host accepts the first eight commands of the rig and answers the
    walk with an empty list. *)
Inductive rig_walk_empty (joint curve : string) (sc : scene)
  : scene -> list HostCall -> Prop :=
| rig_walk_empty_intro sc1 sc2 sc3 sc4 sc5 sc6 sc7 sc8
    ctrl_name grp_name result oriented :
    makeIdentity sc curve = (sc1, Some tt) ->
    deleteHistory sc1 curve = (sc2, Some tt) ->
    rename sc2 curve (str_replace joint "BIND" "CC") = (sc3, Some ctrl_name) ->
    group sc3 ctrl_name (str_replace ctrl_name "CC" "cc_GRP") = (sc4, Some grp_name) ->
    parentConstraint sc4 joint grp_name false = (sc5, Some result) ->
    delete sc5 result = (sc6, Some tt) ->
    orientConstraint sc6 ctrl_name joint false = (sc7, Some oriented) ->
    pickWalkUp sc7 joint = (sc8, Some []) ->
    rig_walk_empty joint curve sc sc8
      [CMakeIdentity curve;
       CDeleteHistory curve;
       CRename curve (str_replace joint "BIND" "CC");
       CGroup ctrl_name (str_replace ctrl_name "CC" "cc_GRP");
       CParentConstraint joint grp_name false;
       CDelete result;
       COrientConstraint ctrl_name joint false;
       CPickWalkUp joint].

(** The Run button shows what the scene's selection allows. *)
Definition fresh (st : State host) : Prop :=
  button_enabled (run_button (st_gui st)) = ready (st_scene st).

(** Exactly two objects selected, one a joint and one a transform. *)
Definition one_joint_one_transform (sc : scene) : Prop :=
  List.length (ls_selection sc) = 2 /\
  count_of_type sc "joint" (ls_selection sc) = 1 /\
  count_of_type sc "transform" (ls_selection sc) = 1.

End MoreNotions.

(* ===================================================================== *)
(** ** [str.replace] *)

Lemma replace_from_skip (old new u s : string) :
  replace_from old new (String.length u) (u ++ s) = replace_from old new 0 s.
Proof.
  induction u as [|a u IH]; simpl.
  - reflexivity.
  - exact IH.
Qed.

Lemma prefix_append (u s : string) : prefix u (u ++ s) = true.
Proof.
  induction u as [|a u IH]; simpl.
  - now destruct s.
  - destruct (ascii_dec a a) as [_|ne]; [exact IH | now destruct ne].
Qed.

Lemma prefix_split (u s : string) :
  prefix u s = true -> exists rest, s = (u ++ rest)%string.
Proof.
  revert s; induction u as [|a u IH]; intros s Hp.
  - exists s; reflexivity.
  - destruct s as [|b s]; simpl in Hp; [discriminate|].
    destruct (ascii_dec a b) as [->|_]; [|discriminate].
    destruct (IH s Hp) as [rest ->].
    exists rest; reflexivity.
Qed.

Lemma replace_from_hit (old new s : string) :
  old <> "" ->
  replace_from old new 0 (old ++ s) = (new ++ replace_from old new 0 s)%string.
Proof.
  intros Hne. destruct old as [|a old']; [now destruct Hne|].
  change (String a old' ++ s)%string with (String a (old' ++ s)).
  cbn [replace_from].
  change (String a (old' ++ s)) with (String a old' ++ s)%string.
  rewrite prefix_append.
  cbn [String.length]. rewrite Nat.sub_1_r, Nat.pred_succ.
  now rewrite replace_from_skip.
Qed.

Lemma length_append (u s : string) :
  String.length (u ++ s) = String.length u + String.length s.
Proof. induction u as [|a u IH]; simpl; [reflexivity | now rewrite IH]. Qed.

Lemma replace_from_Replaced (old new : string) :
  old <> "" -> forall s, Replaced old new s (replace_from old new 0 s).
Proof.
  intros Hne s.
  remember (String.length s) as n eqn:Hn.
  revert s Hn; induction n as [n IH] using lt_wf_ind; intros s Hn.
  destruct s as [|ch rest].
  - constructor.
  - destruct (prefix old (String ch rest)) eqn:Hp.
    + destruct (prefix_split _ _ Hp) as [tl Htl].
      rewrite Htl, replace_from_hit by assumption.
      constructor.
      apply (IH (String.length tl)); [|reflexivity].
      subst n. rewrite Htl, length_append.
      destruct old; [now destruct Hne | simpl; lia].
    + cbn [replace_from]. rewrite Hp.
      constructor; [assumption|].
      apply (IH (String.length rest)); [subst n; simpl; lia | reflexivity].
Qed.

Lemma str_replace_Replaced (s old new : string) :
  old <> "" -> Replaced old new s (str_replace s old new).
Proof.
  intros Hne. unfold str_replace.
  destruct old; [now destruct Hne|].
  now apply replace_from_Replaced.
Qed.

Lemma occurs_tail (old s : string) (ch : ascii) :
  occurs old s -> occurs old (String ch s).
Proof.
  intros (pre & post & ->). exists (String ch pre), post. reflexivity.
Qed.

Lemma str_replace_absent (s old new : string) :
  ~ occurs old s -> str_replace s old new = s.
Proof.
  intros Hno. unfold str_replace.
  destruct old as [|a old'].
  - destruct Hno. exists "", s. reflexivity.
  - induction s as [|ch rest IH]; [reflexivity|].
    cbn [replace_from].
    destruct (prefix (String a old') (String ch rest)) eqn:Hp.
    + destruct Hno. destruct (prefix_split _ _ Hp) as [tl ->].
      exists "", tl. reflexivity.
    + f_equal. apply IH. intros Hocc. apply Hno. now apply occurs_tail.
Qed.

(** [Replaced] has one answer, the one [str.replace] computes. *)
Lemma Replaced_str_replace (old new s t : string) :
  old <> "" -> Replaced old new s t -> t = str_replace s old new.
Proof.
  intros Hne Hrep.
  assert (Hfrom : forall u, str_replace u old new = replace_from old new 0 u)
    by (intros u; unfold str_replace; destruct old; [now destruct Hne | reflexivity]).
  rewrite Hfrom.
  induction Hrep as [|s t _ IH|ch s t Hmiss _ IH].
  - reflexivity.
  - now rewrite replace_from_hit, IH.
  - cbn [replace_from]. now rewrite Hmiss, IH.
Qed.

Lemma prefix_empty (s : string) : prefix "" s = true.
Proof. now destruct s. Qed.

Lemma has_char_head (a c : ascii) (rest : string) :
  has_char a (String c rest) = false -> a <> c /\ has_char a rest = false.
Proof.
  cbn [has_char]. destruct (Ascii.eqb a c) eqn:E; [discriminate|].
  intros H. split; [now apply Ascii.eqb_neq | exact H].
Qed.

Lemma chars_apart_tail (old new : string) (c : ascii) :
  chars_apart old (String c new) = true ->
  has_char c old = false /\ chars_apart old new = true.
Proof.
  induction old as [|a old IH]; cbn [chars_apart has_char]; [auto|].
  intros H. apply andb_true_iff in H. destruct H as [Ha Hrest].
  apply negb_true_iff, has_char_head in Ha. destruct Ha as [Hac Ha].
  destruct (IH Hrest) as [Hc Hold].
  rewrite Ha, Hold, Hc.
  destruct (Ascii.eqb c a) eqn:E; [|auto].
  apply Ascii.eqb_eq in E. now destruct Hac.
Qed.

(** A word with no character of [new] that starts the result started the
    source. *)
Lemma Replaced_prefix (old new : string) :
  new <> "" ->
  forall u, chars_apart u new = true ->
  forall s t, Replaced old new s t -> prefix u t = true -> prefix u s = true.
Proof.
  intros Hnew u. induction u as [|a u IH]; intros Hu s t Hrep Hpre.
  - apply prefix_empty.
  - cbn [chars_apart] in Hu. apply andb_true_iff in Hu.
    destruct Hu as [Ha Hu]. apply negb_true_iff in Ha.
    destruct Hrep as [|s t _|ch s t _ Hrep].
    + discriminate Hpre.
    + destruct new as [|c new']; [now destruct Hnew|].
      apply has_char_head in Ha. destruct Ha as [Hac _].
      cbn in Hpre. destruct (ascii_dec a c); [contradiction | discriminate].
    + cbn in Hpre |- *. destruct (ascii_dec a ch); [|discriminate].
      now apply (IH Hu s t).
Qed.

Lemma Replaced_no_prefix (old new s t : string) :
  old <> "" -> new <> "" -> chars_apart old new = true ->
  Replaced old new s t -> prefix old t = false.
Proof.
  intros Hold Hnew Hapart Hrep.
  destruct old as [|a old']; [now destruct Hold|].
  pose proof Hapart as Hboth.
  cbn [chars_apart] in Hboth. apply andb_true_iff in Hboth.
  destruct Hboth as [Ha Hold']. apply negb_true_iff in Ha.
  destruct Hrep as [|s t _|ch s t Hmiss Hrep].
  - reflexivity.
  - destruct new as [|c new']; [now destruct Hnew|].
    apply has_char_head in Ha. destruct Ha as [Hac _].
    cbn. destruct (ascii_dec a c); [contradiction | reflexivity].
  - destruct (prefix (String a old') (String ch t)) eqn:E; [|reflexivity].
    cbn in E, Hmiss. destruct (ascii_dec a ch); [|discriminate].
    rewrite (Replaced_prefix _ _ Hnew old' Hold' s t Hrep E) in Hmiss.
    discriminate.
Qed.

Lemma occurs_behind_new (old new t : string) :
  old <> "" -> chars_apart old new = true ->
  occurs old (new ++ t) -> occurs old t.
Proof.
  intros Hold. induction new as [|c new IH]; intros Hapart Hocc; [exact Hocc|].
  destruct (chars_apart_tail _ _ _ Hapart) as [Hc Hrest].
  destruct Hocc as (pre & post & E).
  destruct pre as [|p pre].
  - destruct old as [|a old']; [now destruct Hold|].
    cbn in E. injection E as <- _. cbn in Hc.
    now rewrite Ascii.eqb_refl in Hc.
  - cbn in E. injection E as _ E. apply (IH Hrest). now exists pre, post.
Qed.

(** Where [old] and [new] share no character, nothing of [old] is left
    after the replacement. *)
Lemma Replaced_clears (old new s t : string) :
  old <> "" -> new <> "" -> chars_apart old new = true ->
  Replaced old new s t -> ~ occurs old t.
Proof.
  intros Hold Hnew Hapart Hrep.
  induction Hrep as [|s t Hrep IH|ch s t Hmiss Hrep IH].
  - intros (pre & post & E).
    destruct pre; [|discriminate E].
    destruct old; [now destruct Hold | discriminate E].
  - intros Hocc. apply IH. now apply (occurs_behind_new old new).
  - intros (pre & post & E). destruct pre as [|p pre].
    + pose proof (Replaced_no_prefix old new _ _ Hold Hnew Hapart
                    (Replaced_miss old new ch s t Hmiss Hrep)) as Hno.
      cbn [append] in E. rewrite E, prefix_append in Hno. discriminate.
    + cbn in E. injection E as _ E. apply IH. now exists pre, post.
Qed.

Lemma str_replace_clears (s old new : string) :
  old <> "" -> new <> "" -> chars_apart old new = true ->
  ~ occurs old (str_replace s old new).
Proof.
  intros Hold Hnew Hapart.
  apply (Replaced_clears old new s); try assumption.
  now apply str_replace_Replaced.
Qed.

Example str_replace_suffix : str_replace "L_arm_BIND" "BIND" "CC" = "L_arm_CC".
Proof. reflexivity. Qed.

Example str_replace_all : str_replace "BIND_a_BINDBIND" "BIND" "CC" = "CC_a_CCCC".
Proof. reflexivity. Qed.

Example str_replace_leftmost : str_replace "aaa" "aa" "b" = "ba".
Proof. reflexivity. Qed.

Example str_replace_group : str_replace "L_CC_CCC" "CC" "cc_GRP" = "L_cc_GRP_cc_GRPC".
Proof. reflexivity. Qed.

Example str_replace_empty_old : str_replace "ab" "" "-" = "-a-b-".
Proof. reflexivity. Qed.

(* ===================================================================== *)
(** ** The selection *)

Section Selection.
Context {host : Host}.

Lemma joint_not_transform (sc : scene) (obj : string) :
  has_type sc "joint" obj = true -> has_type sc "transform" obj = false.
Proof.
  unfold has_type. intros Hj. apply String.eqb_eq in Hj. now rewrite Hj.
Qed.

Lemma last_of_type_In (sc : scene) (ty : string) (sel : list string) (obj : string) :
  last_of_type sc ty sel = Some obj -> In obj sel /\ objectType sc obj = ty.
Proof.
  induction sel as [|x rest IH]; simpl; [discriminate|].
  destruct (last_of_type sc ty rest) as [later|].
  - intros [= ->]. destruct IH as [Hin Hty]; auto.
  - destruct (has_type sc ty x) eqn:Hx; intros [= ->].
    split; [now left | now apply String.eqb_eq].
Qed.

Lemma last_of_type_None (sc : scene) (ty : string) (sel : list string) :
  last_of_type sc ty sel = None <->
  forall obj, In obj sel -> objectType sc obj <> ty.
Proof.
  induction sel as [|x rest IH]; simpl.
  - split; [intros _ obj [] | reflexivity].
  - destruct (last_of_type sc ty rest) as [later|] eqn:Hl.
    + split; [discriminate|]. intros Hall.
      destruct (last_of_type_In _ _ _ _ Hl) as [Hin Hty].
      now destruct (Hall later (or_intror Hin)).
    + destruct (has_type sc ty x) eqn:Hx.
      * split; [discriminate|]. intros Hall.
        apply String.eqb_eq in Hx. now destruct (Hall x (or_introl eq_refl)).
      * split; [|reflexivity]. intros _ obj [<-|Hin].
        -- now apply String.eqb_neq.
        -- now apply (proj1 IH).
Qed.

(** [last_of_type] finds the element behind which none has the type. *)
Lemma last_of_type_split (sc : scene) (ty : string) (sel : list string) (obj : string) :
  last_of_type sc ty sel = Some obj <->
  exists before after,
    sel = before ++ obj :: after /\ objectType sc obj = ty /\
    forall o, In o after -> objectType sc o <> ty.
Proof.
  split.
  - induction sel as [|x rest IH]; simpl; [discriminate|].
    destruct (last_of_type sc ty rest) as [later|] eqn:Hl.
    + intros [= ->]. destruct (IH eq_refl) as (before & after & -> & Hty & Hafter).
      exists (x :: before), after. auto.
    + destruct (has_type sc ty x) eqn:Hx; intros [= ->].
      exists [], rest. repeat split.
      * now apply String.eqb_eq.
      * now apply last_of_type_None.
  - intros (before & after & -> & Hty & Hafter).
    induction before as [|b before IH]; simpl.
    + apply last_of_type_None in Hafter. rewrite Hafter.
      unfold has_type. now rewrite (proj2 (String.eqb_eq _ _) Hty).
    + now rewrite IH.
Qed.

Lemma last_of_type_filter (sc : scene) (ty : string) (keep : string -> bool)
      (sel : list string) :
  (forall obj, has_type sc ty obj = true -> keep obj = true) ->
  last_of_type sc ty (filter keep sel) = last_of_type sc ty sel.
Proof.
  intros Hkeep. induction sel as [|x rest IH]; simpl; [reflexivity|].
  destruct (keep x) eqn:Hk; simpl; rewrite IH; [reflexivity|].
  destruct (last_of_type sc ty rest); [reflexivity|].
  destruct (has_type sc ty x) eqn:Hx; [|reflexivity].
  rewrite (Hkeep x Hx) in Hk. discriminate.
Qed.

Lemma truthy_Some (v : option string) :
  truthy v = true <-> exists n, v = Some n /\ n <> "".
Proof.
  destruct v as [n|]; simpl.
  - rewrite negb_true_iff, String.eqb_neq. split.
    + intros Hn. now exists n.
    + now intros (m & [= ->] & Hm).
  - split; [discriminate | now intros (m & Hm & _)].
Qed.

Lemma named_last_of_type (sc : scene) (ty : string) :
  named_selection sc ->
  truthy (last_of_type sc ty (ls_selection sc)) = true <->
  exists obj, In obj (ls_selection sc) /\ objectType sc obj = ty.
Proof.
  intros Hnamed. rewrite truthy_Some. split.
  - intros (n & Hn & _). exists n. now apply last_of_type_In in Hn.
  - intros (obj & Hin & Hty).
    destruct (last_of_type sc ty (ls_selection sc)) as [n|] eqn:Hl.
    + exists n. split; [reflexivity|].
      apply last_of_type_In in Hl. destruct Hl as [Hn _].
      unfold named_selection in Hnamed. rewrite Forall_forall in Hnamed.
      now apply Hnamed.
    + rewrite last_of_type_None in Hl. now destruct (Hl obj Hin).
Qed.

(** With two elements selected, a joint and a curve found are the two. *)
Lemma two_selected_one_each (sc : scene) (sel : list string) (j c : string) :
  List.length sel = 2 ->
  last_of_type sc "joint" sel = Some j ->
  last_of_type sc "transform" sel = Some c ->
  count_of_type sc "joint" sel = 1 /\ count_of_type sc "transform" sel = 1.
Proof.
  destruct sel as [|a [|b [|x rest]]]; try discriminate. intros _.
  unfold count_of_type. simpl.
  destruct (has_type sc "joint" a) eqn:Ja, (has_type sc "joint" b) eqn:Jb;
    try rewrite (joint_not_transform _ _ Ja);
    try rewrite (joint_not_transform _ _ Jb);
    try discriminate;
    destruct (has_type sc "transform" a) eqn:Ta;
    destruct (has_type sc "transform" b) eqn:Tb;
    try discriminate; simpl; auto;
    try (rewrite (joint_not_transform _ _ Ja) in Ta; discriminate);
    try (rewrite (joint_not_transform _ _ Jb) in Tb; discriminate).
Qed.

End Selection.

(* ===================================================================== *)
(** ** Runs of the methods *)

Section Runs.
Context {host : Host}.

Lemma skipn_log (l r : list HostCall) : skipn (List.length l) (l ++ r) = r.
Proof. induction l as [|x l IH]; simpl; [reflexivity | exact IH]. Qed.

Lemma identify_loop_run (sel : list string) :
  forall (j c : option string) (st : State host),
    identify_loop sel j c st =
    (log_more st (identify_calls (st_scene st) sel),
     Returned
       (match last_of_type (st_scene st) "joint" sel with
        | Some x => Some x | None => j end,
        match last_of_type (st_scene st) "transform" sel with
        | Some x => Some x | None => c end)).
Proof.
  induction sel as [|obj rest IH]; intros j c st.
  - unfold log_more; simpl. rewrite app_nil_r. now destruct st.
  - cbn [identify_loop]. unfold bind at 1.
    unfold cmds_objectType at 1, query at 1. cbn [fst snd].
    fold (has_type (st_scene st) "joint" obj).
    destruct (has_type (st_scene st) "joint" obj) eqn:Hj.
    + rewrite IH. cbn [st_scene last_of_type identify_calls flat_map].
      fold (identify_calls (st_scene st) rest).
      rewrite Hj, (joint_not_transform _ _ Hj).
      unfold log_more, logged; cbn [st_scene st_gui st_log].
      rewrite <- app_assoc. cbn [app].
      repeat f_equal;
        now destruct (last_of_type (st_scene st) _ rest).
    + unfold bind at 1. unfold cmds_objectType at 1, query at 1.
      cbn [fst snd st_scene].
      fold (has_type (st_scene st) "transform" obj).
      cbn [last_of_type identify_calls flat_map].
      fold (identify_calls (st_scene st) rest). rewrite Hj.
      destruct (has_type (st_scene st) "transform" obj) eqn:Ht;
        rewrite IH; unfold log_more, logged; cbn [st_scene st_gui st_log];
        repeat rewrite <- app_assoc; cbn [app];
        repeat f_equal;
        now destruct (last_of_type (st_scene st) _ rest).
Qed.

Lemma identify_selection_run (sel : list string) (st : State host) :
  identify_selection sel st =
  (log_more st (identify_calls (st_scene st) sel),
   Returned (last_of_type (st_scene st) "joint" sel,
             last_of_type (st_scene st) "transform" sel)).
Proof.
  unfold identify_selection. rewrite identify_loop_run.
  repeat f_equal; now destruct (last_of_type (st_scene st) _ sel).
Qed.

Lemma update_selection_run (st : State host) :
  update_selection st =
  ({| st_scene := st_scene st;
      st_gui := update_gui (st_scene st) (st_gui st);
      st_log := st_log st ++ update_calls (st_scene st) |},
   Returned tt).
Proof.
  unfold update_selection, update_gui, update_calls.
  unfold bind at 1. unfold cmds_ls_selection, query. cbn [fst snd st_scene].
  assert (Hnil : list_truthy (ls_selection (st_scene st)) = false ->
                 Nat.eqb (List.length (ls_selection (st_scene st))) 2 = false)
    by now destruct (ls_selection (st_scene st)).
  destruct (Nat.eqb (List.length (ls_selection (st_scene st))) 2) eqn:Hlen;
    [destruct (list_truthy (ls_selection (st_scene st)));
       [|now discriminate Hnil]
    |rewrite orb_true_r]; cbn [negb orb].
  - unfold bind at 1. rewrite identify_selection_run.
    unfold validates, selected_joint, selected_curve.
    cbn [log_more st_scene].
    destruct (truthy (last_of_type (st_scene st) "joint" (ls_selection (st_scene st)))
              && truthy (last_of_type (st_scene st) "transform" (ls_selection (st_scene st))));
      unfold bind, selected_label_setText, run_button_setEnabled, widget,
        log_more, logged;
      cbn [st_scene st_gui st_log run_button with_selected_label];
      rewrite <- app_assoc; reflexivity.
  - unfold bind, selected_label_setText, run_button_setEnabled, widget, logged;
      cbn [st_scene st_gui st_log run_button with_selected_label].
    reflexivity.
Qed.

Lemma run_tool_invalid (st : State host) :
  validates (st_scene st) = false ->
  run_tool st =
  (log_more st (validation_calls (st_scene st) ++ [CWarning msg_warning]),
   Returned tt).
Proof.
  intros Hv. unfold run_tool.
  unfold bind at 1. unfold cmds_ls_selection, query. cbn [fst snd st_scene].
  unfold bind at 1. rewrite identify_selection_run. cbn [log_more st_scene].
  unfold validates, selected_joint, selected_curve in Hv.
  rewrite <- negb_andb, Hv. cbn [negb].
  unfold cmds_warning, query, log_more, logged, validation_calls;
    cbn [st_scene st_gui st_log].
  repeat rewrite <- app_assoc. reflexivity.
Qed.

Lemma run_tool_valid (st : State host) :
  validates (st_scene st) = true ->
  exists joint curve,
    selected_joint (st_scene st) = Some joint /\
    selected_curve (st_scene st) = Some curve /\
    run_tool st = rig joint curve (log_more st (validation_calls (st_scene st))).
Proof.
  intros Hv. unfold run_tool.
  unfold bind at 1. unfold cmds_ls_selection, query. cbn [fst snd st_scene].
  unfold bind at 1. rewrite identify_selection_run. cbn [log_more st_scene].
  pose proof Hv as Hv'.
  unfold validates, selected_joint, selected_curve in Hv |- *.
  rewrite <- negb_andb, Hv. cbn [negb].
  apply andb_true_iff in Hv. destruct Hv as [Hj Hc].
  apply truthy_Some in Hj, Hc.
  destruct Hj as (joint & Hj & _), Hc as (curve & Hc & _).
  exists joint, curve. rewrite Hj, Hc. repeat split.
  unfold log_more, logged, validation_calls; cbn [st_scene st_gui st_log].
  now rewrite <- app_assoc.
Qed.

Lemma identify_calls_lookups (sc : scene) (sel : list string) :
  forallb is_lookup (identify_calls sc sel) = true.
Proof.
  induction sel as [|obj rest IH]; [reflexivity|].
  unfold identify_calls in *. cbn [flat_map].
  rewrite forallb_app, IH. now destruct (has_type sc "joint" obj).
Qed.

Lemma validation_calls_lookups (sc : scene) :
  forallb is_lookup (validation_calls sc) = true.
Proof. unfold validation_calls. cbn. apply identify_calls_lookups. Qed.

Lemma update_calls_lookups (sc : scene) :
  forallb is_lookup (update_calls sc) = true.
Proof.
  unfold update_calls. cbn.
  destruct (Nat.eqb _ 2); [apply identify_calls_lookups | reflexivity].
Qed.

Lemma lookups_no_phase (l : list HostCall) :
  forallb is_lookup l = true -> phases l = [].
Proof.
  induction l as [|c l IH]; [reflexivity|]. cbn [forallb phases].
  intros H. apply andb_true_iff in H. destruct H as [Hc Hl].
  destruct c; try discriminate; cbn; auto.
Qed.

Lemma lookups_filter (p : HostCall -> bool) (l : list HostCall) :
  (forall c, is_lookup c = true -> p c = false) ->
  forallb is_lookup l = true -> filter p l = [].
Proof.
  intros Hp. induction l as [|c l IH]; [reflexivity|]. cbn [forallb filter].
  intros H. apply andb_true_iff in H. destruct H as [Hc Hl].
  rewrite (Hp c Hc). auto.
Qed.

Lemma lookups_existsb (p : HostCall -> bool) (l : list HostCall) :
  (forall c, is_lookup c = true -> p c = false) ->
  forallb is_lookup l = true -> existsb p l = false.
Proof.
  intros Hp. induction l as [|c l IH]; [reflexivity|]. cbn [forallb existsb].
  intros H. apply andb_true_iff in H. destruct H as [Hc Hl].
  rewrite (Hp c Hc). auto.
Qed.

Lemma lookup_not_edit (c : HostCall) : is_lookup c = true -> is_edit c = false.
Proof. now destruct c. Qed.

Lemma lookup_not_constraint (c : HostCall) :
  is_lookup c = true -> is_constraint c = false.
Proof. now destruct c. Qed.

Lemma lookup_not_warning (c : HostCall) :
  is_lookup c = true -> is_warning c = false.
Proof. now destruct c. Qed.

Lemma phases_app (a b : list HostCall) : phases (a ++ b) = phases a ++ phases b.
Proof.
  induction a as [|c a IH]; [reflexivity|]. cbn [app phases].
  destruct (phase_of c); cbn [app]; now rewrite IH.
Qed.

End Runs.

(* ===================================================================== *)
(** ** Runs of the rig *)

Section Rig.
Context {host : Host}.

(** One command of the rig: the host's answer is taken apart. *)
Local Tactic Notation "host_step" constr(answer) "as" simple_intropattern(pat)
       "by" ident(E) :=
  unfold bind at 1; unfold command at 1; cbn beta;
  cbn [st_scene st_gui st_log];
  destruct answer as pat eqn:E.

Ltac stopped_at n :=
  intros [= <- <-]; left; do 3 eexists; split;
  [ unfold logged; cbn [st_log]; repeat rewrite <- app_assoc; reflexivity
  | exists n; eexists; cbn; repeat split; lia ].

Lemma rig_accepted_prefix (joint curve : string) (sc sc' : scene)
      (calls : list HostCall) :
  rig_accepted joint curve sc sc' calls ->
  rig_prefix curve (calls ++ update_calls sc').
Proof.
  intros Hacc. pose proof (update_calls_lookups sc') as Hup.
  exists 9. destruct Hacc. eexists.
  rewrite phases_app, !filter_app, (lookups_no_phase _ Hup),
    (lookups_filter _ _ lookup_not_edit Hup),
    (lookups_filter _ _ lookup_not_constraint Hup).
  cbn. repeat split; lia.
Qed.

(** Whatever the host answers, the rig sends its commands in its order
    and stops at the first that raises, the dialog untouched; or the host
    accepts all nine and the rig returns with the dialog refreshed. *)
Lemma rig_cases (joint curve : string) (st : State host) :
  (exists sc' calls e,
      rig joint curve st =
      ({| st_scene := sc'; st_gui := st_gui st; st_log := st_log st ++ calls |},
       Raised e) /\
      rig_prefix curve calls) \/
  (exists sc' calls,
      rig_accepted joint curve (st_scene st) sc' calls /\
      rig joint curve st =
      ({| st_scene := sc';
          st_gui := update_gui sc'
                      (with_info_label {| label_text := msg_success |} (st_gui st));
          st_log := st_log st ++ calls ++ update_calls sc' |},
       Returned tt)).
Proof.
  destruct (rig joint curve st) as [st' o] eqn:Hrig. revert Hrig.
  unfold rig_prefix, rig, cmds_makeIdentity, cmds_delete_history, cmds_rename,
    cmds_group, cmds_parentConstraint, cmds_delete, cmds_orientConstraint,
    cmds_pickWalk_up.
  host_step (makeIdentity (st_scene st) curve) as [sc1 [[]|]] by E1;
    [|stopped_at 1].
  host_step (deleteHistory sc1 curve) as [sc2 [[]|]] by E2;
    [|stopped_at 2].
  host_step (rename sc2 curve (str_replace joint "BIND" "CC"))
    as [sc3 [ctrl_name|]] by E3; [|stopped_at 3].
  host_step (group sc3 ctrl_name (str_replace ctrl_name "CC" "cc_GRP"))
    as [sc4 [grp_name|]] by E4; [|stopped_at 4].
  host_step (parentConstraint sc4 joint grp_name false)
    as [sc5 [result|]] by E5; [|stopped_at 5].
  host_step (delete sc5 result) as [sc6 [[]|]] by E6; [|stopped_at 6].
  host_step (orientConstraint sc6 ctrl_name joint false)
    as [sc7 [oriented|]] by E7; [|stopped_at 7].
  host_step (pickWalkUp sc7 joint) as [sc8 [walked|]] by E8; [|stopped_at 8].
  unfold bind at 1, lift_outcome at 1.
  destruct walked as [|parent_joint others]; cbn [index0]; [stopped_at 8|].
  host_step (parentConstraint sc8 parent_joint grp_name true)
    as [sc9 [constrained|]] by E9; [|stopped_at 9].
  unfold bind at 1, info_label_setText, widget. cbn [st_scene st_gui st_log].
  rewrite update_selection_run. cbn [st_scene st_gui st_log].
  intros [= <- <-]. right. do 2 eexists. split.
  - eapply rig_accepted_intro; eassumption.
  - unfold logged; cbn [st_log]. repeat rewrite <- app_assoc. reflexivity.
Qed.

Ltac calls_aimed :=
  intros [= <- <-]; eexists; split;
  [ unfold logged; cbn [fst st_log]; repeat rewrite <- app_assoc; reflexivity
  | intros call Hin; cbn [In app] in Hin;
    repeat (destruct Hin as [<- | Hin];
            [right; cbn; repeat split; first [reflexivity | discriminate]|]);
    try (now destruct Hin) ].

(** Whatever the host answers, every call of the rig is aimed at the
    joint and the curve it was given, or is a query about the selection. *)
Lemma rig_calls_aimed (joint curve : string) (st : State host) :
  exists calls,
    st_log (fst (rig joint curve st)) = st_log st ++ calls /\
    forall call, In call calls -> is_lookup call = true \/ aimed joint curve call.
Proof.
  destruct (rig joint curve st) as [st' o] eqn:Hrig. revert Hrig.
  unfold rig, cmds_makeIdentity, cmds_delete_history, cmds_rename,
    cmds_group, cmds_parentConstraint, cmds_delete, cmds_orientConstraint,
    cmds_pickWalk_up.
  host_step (makeIdentity (st_scene st) curve) as [sc1 [[]|]] by E1;
    [|calls_aimed].
  host_step (deleteHistory sc1 curve) as [sc2 [[]|]] by E2;
    [|calls_aimed].
  host_step (rename sc2 curve (str_replace joint "BIND" "CC"))
    as [sc3 [ctrl_name|]] by E3; [|calls_aimed].
  host_step (group sc3 ctrl_name (str_replace ctrl_name "CC" "cc_GRP"))
    as [sc4 [grp_name|]] by E4; [|calls_aimed].
  host_step (parentConstraint sc4 joint grp_name false)
    as [sc5 [result|]] by E5; [|calls_aimed].
  host_step (delete sc5 result) as [sc6 [[]|]] by E6; [|calls_aimed].
  host_step (orientConstraint sc6 ctrl_name joint false)
    as [sc7 [oriented|]] by E7; [|calls_aimed].
  host_step (pickWalkUp sc7 joint) as [sc8 [walked|]] by E8; [|calls_aimed].
  unfold bind at 1, lift_outcome at 1.
  destruct walked as [|parent_joint others]; cbn [index0]; [calls_aimed|].
  host_step (parentConstraint sc8 parent_joint grp_name true)
    as [sc9 [constrained|]] by E9; [|calls_aimed].
  unfold bind at 1, info_label_setText, widget. cbn [st_scene st_gui st_log].
  rewrite update_selection_run. cbn [st_scene st_gui st_log].
  pose proof (update_calls_lookups sc9) as Hup.
  rewrite forallb_forall in Hup.
  calls_aimed. left. apply Hup. unfold update_calls. right. exact Hin.
Qed.

(** The rig raises [IndexError] exactly when the host accepts the first
    eight commands and answers the walk with an empty list; the eight
    edits stay done, the ninth is not sent and the dialog is not told. *)
Lemma rig_index_error_iff (joint curve : string) (st st' : State host) :
  rig joint curve st = (st', Raised IndexError) <->
  exists sc' calls,
    rig_walk_empty joint curve (st_scene st) sc' calls /\
    st' = {| st_scene := sc'; st_gui := st_gui st;
             st_log := st_log st ++ calls |}.
Proof.
  split.
  - unfold rig, cmds_makeIdentity, cmds_delete_history, cmds_rename,
      cmds_group, cmds_parentConstraint, cmds_delete, cmds_orientConstraint,
      cmds_pickWalk_up.
    host_step (makeIdentity (st_scene st) curve) as [sc1 [[]|]] by E1;
      [|discriminate].
    host_step (deleteHistory sc1 curve) as [sc2 [[]|]] by E2;
      [|discriminate].
    host_step (rename sc2 curve (str_replace joint "BIND" "CC"))
      as [sc3 [ctrl_name|]] by E3; [|discriminate].
    host_step (group sc3 ctrl_name (str_replace ctrl_name "CC" "cc_GRP"))
      as [sc4 [grp_name|]] by E4; [|discriminate].
    host_step (parentConstraint sc4 joint grp_name false)
      as [sc5 [result|]] by E5; [|discriminate].
    host_step (delete sc5 result) as [sc6 [[]|]] by E6; [|discriminate].
    host_step (orientConstraint sc6 ctrl_name joint false)
      as [sc7 [oriented|]] by E7; [|discriminate].
    host_step (pickWalkUp sc7 joint) as [sc8 [walked|]] by E8; [|discriminate].
    unfold bind at 1, lift_outcome at 1.
    destruct walked as [|parent_joint others]; cbn [index0].
    + intros [= <-]. do 2 eexists. split.
      * eapply rig_walk_empty_intro; eassumption.
      * unfold logged; cbn [st_log]. repeat rewrite <- app_assoc. reflexivity.
    + host_step (parentConstraint sc8 parent_joint grp_name true)
        as [sc9 [constrained|]] by E9; [|discriminate].
      unfold bind at 1, info_label_setText, widget.
      cbn [st_scene st_gui st_log].
      rewrite update_selection_run. discriminate.
  - intros (sc' & calls & Hwalk & ->).
    destruct Hwalk as [sc1 sc2 sc3 sc4 sc5 sc6 sc7 sc8
                         ctrl_name grp_name result oriented
                         E1 E2 E3 E4 E5 E6 E7 E8].
    unfold rig, cmds_makeIdentity, cmds_delete_history, cmds_rename,
      cmds_group, cmds_parentConstraint, cmds_delete, cmds_orientConstraint,
      cmds_pickWalk_up.
    unfold bind, command, lift_outcome. cbn [st_scene st_gui st_log].
    rewrite E1; cbn [st_scene st_gui st_log].
    rewrite E2; cbn [st_scene st_gui st_log].
    rewrite E3; cbn [st_scene st_gui st_log].
    rewrite E4; cbn [st_scene st_gui st_log].
    rewrite E5; cbn [st_scene st_gui st_log].
    rewrite E6; cbn [st_scene st_gui st_log].
    rewrite E7; cbn [st_scene st_gui st_log].
    rewrite E8; cbn [st_scene st_gui st_log index0].
    unfold logged; cbn [st_log].
    repeat rewrite <- app_assoc. reflexivity.
Qed.

Lemma rig_sends_prefix (joint curve : string) (st : State host) :
  exists calls,
    st_log (fst (rig joint curve st)) = st_log st ++ calls /\
    rig_prefix curve calls.
Proof.
  destruct (rig_cases joint curve st)
    as [(sc' & calls & e & -> & Hpre) | (sc' & calls & Hacc & ->)].
  - now exists calls.
  - exists (calls ++ update_calls sc'). split; [reflexivity|].
    now apply (rig_accepted_prefix joint curve (st_scene st)).
Qed.

(** The rig leaves the dialog's window properties and its Close button
    alone, whatever the host answers. *)
Lemma rig_keeps_window (joint curve : string) (st : State host) :
  visible (st_gui (fst (rig joint curve st))) = visible (st_gui st) /\
  modal (st_gui (fst (rig joint curve st))) = modal (st_gui st) /\
  close_button (st_gui (fst (rig joint curve st))) = close_button (st_gui st).
Proof.
  destruct (rig_cases joint curve st)
    as [(sc' & calls & e & -> & _) | (sc' & calls & _ & ->)];
    cbn [fst st_gui]; [auto|].
  unfold update_gui.
  destruct (Nat.eqb (List.length (ls_selection sc')) 2); cbn [negb];
    [destruct (validates sc')|]; auto.
Qed.

(** The rig returns exactly when the host accepts its nine commands and
    answers the walk with a node; it then leaves the scene of the last
    command, the success message, and the dialog refreshed over that
    scene. *)
Lemma rig_returns_iff (joint curve : string) (st st' : State host) :
  rig joint curve st = (st', Returned tt) <->
  exists sc' calls,
    rig_accepted joint curve (st_scene st) sc' calls /\
    st' = {| st_scene := sc';
             st_gui := update_gui sc'
                         (with_info_label {| label_text := msg_success |} (st_gui st));
             st_log := st_log st ++ calls ++ update_calls sc' |}.
Proof.
  split.
  - intros Hrun.
    destruct (rig_cases joint curve st)
      as [(sc' & calls & e & Hr & _) | (sc' & calls & Hacc & Hr)];
      rewrite Hr in Hrun; [discriminate|].
    injection Hrun as <-. now exists sc', calls.
  - intros (sc' & calls & Hacc & ->).
    destruct Hacc as [sc1 sc2 sc3 sc4 sc5 sc6 sc7 sc8 sc9
                        ctrl_name grp_name result oriented parent_joint others
                        constrained E1 E2 E3 E4 E5 E6 E7 E8 E9].
    unfold rig, cmds_makeIdentity, cmds_delete_history, cmds_rename,
      cmds_group, cmds_parentConstraint, cmds_delete, cmds_orientConstraint,
      cmds_pickWalk_up.
    unfold bind, command, lift_outcome. cbn [st_scene st_gui st_log].
    rewrite E1; cbn [st_scene st_gui st_log].
    rewrite E2; cbn [st_scene st_gui st_log].
    rewrite E3; cbn [st_scene st_gui st_log].
    rewrite E4; cbn [st_scene st_gui st_log].
    rewrite E5; cbn [st_scene st_gui st_log].
    rewrite E6; cbn [st_scene st_gui st_log].
    rewrite E7; cbn [st_scene st_gui st_log].
    rewrite E8; cbn [st_scene st_gui st_log index0].
    rewrite E9; cbn [st_scene st_gui st_log].
    unfold info_label_setText, widget. cbn [st_scene st_gui st_log].
    rewrite update_selection_run. cbn [st_scene st_gui st_log].
    unfold logged; cbn [st_log].
    repeat rewrite <- app_assoc. reflexivity.
Qed.

End Rig.

(* ===================================================================== *)
(** ** Runs of [run_tool] *)

Section RunTool.
Context {host : Host}.

Lemma validates_named (sc : scene) :
  named_selection sc ->
  validates sc = true <->
  (exists j, In j (ls_selection sc) /\ objectType sc j = "joint") /\
  (exists c, In c (ls_selection sc) /\ objectType sc c = "transform").
Proof.
  intros Hnamed. unfold validates, selected_joint, selected_curve.
  rewrite andb_true_iff.
  now rewrite (named_last_of_type sc "joint" Hnamed),
              (named_last_of_type sc "transform" Hnamed).
Qed.

Lemma run_tool_invalid_calls (st : State host) :
  validates (st_scene st) = false ->
  calls_of run_tool st = validation_calls (st_scene st) ++ [CWarning msg_warning].
Proof.
  intros Hv. unfold calls_of. rewrite (run_tool_invalid st Hv).
  unfold log_more; cbn [fst st_log]. apply skipn_log.
Qed.

(** A validated run sends the freeze right behind the validation's
    queries, then an initial part of the rig. *)
Lemma run_tool_valid_calls (st : State host) :
  validates (st_scene st) = true ->
  exists curve calls,
    selected_curve (st_scene st) = Some curve /\
    calls_of run_tool st = validation_calls (st_scene st) ++ calls /\
    rig_prefix curve calls.
Proof.
  intros Hv. destruct (run_tool_valid st Hv) as (j & c & Hj & Hc & Hrun).
  destruct (rig_sends_prefix j c (log_more st (validation_calls (st_scene st))))
    as (calls & Hlog & Hpre).
  exists c, calls. repeat split; try assumption.
  unfold calls_of. rewrite Hrun, Hlog.
  unfold log_more; cbn [st_log]. rewrite <- app_assoc. apply skipn_log.
Qed.

(** A validated run that returns went through the whole rig. *)
Lemma run_tool_returned (st : State host) :
  validates (st_scene st) = true ->
  snd (run_tool st) = Returned tt ->
  exists joint curve sc' calls,
    selected_joint (st_scene st) = Some joint /\
    selected_curve (st_scene st) = Some curve /\
    rig_accepted joint curve (st_scene st) sc' calls /\
    run_tool st =
    ({| st_scene := sc';
        st_gui := update_gui sc'
                    (with_info_label {| label_text := msg_success |} (st_gui st));
        st_log := st_log st ++ validation_calls (st_scene st) ++ calls
                            ++ update_calls sc' |},
     Returned tt).
Proof.
  intros Hv Hret. destruct (run_tool_valid st Hv) as (j & c & Hj & Hc & Hrun).
  rewrite Hrun in Hret |- *.
  destruct (rig j c (log_more st (validation_calls (st_scene st))))
    as [st' o] eqn:Hrig.
  cbn [snd] in Hret. subst o.
  apply rig_returns_iff in Hrig. destruct Hrig as (sc' & calls & Hacc & ->).
  exists j, c, sc', calls. repeat split; try assumption.
  unfold log_more; cbn [st_scene st_gui st_log]. now rewrite <- app_assoc.
Qed.

Lemma run_tool_returned_calls (st : State host) :
  validates (st_scene st) = true ->
  snd (run_tool st) = Returned tt ->
  exists joint curve sc' calls,
    selected_joint (st_scene st) = Some joint /\
    selected_curve (st_scene st) = Some curve /\
    rig_accepted joint curve (st_scene st) sc' calls /\
    st_scene (fst (run_tool st)) = sc' /\
    calls_of run_tool st =
    validation_calls (st_scene st) ++ calls ++ update_calls sc'.
Proof.
  intros Hv Hret.
  destruct (run_tool_returned st Hv Hret)
    as (j & c & sc' & calls & Hj & Hc & Hacc & Hrun).
  exists j, c, sc', calls. repeat split; try assumption.
  - now rewrite Hrun.
  - unfold calls_of. rewrite Hrun. cbn [fst st_log]. apply skipn_log.
Qed.

(** No run of [run_tool] touches the dialog's window properties or its
    Close button. *)
Lemma run_tool_keeps_window (st : State host) :
  visible (st_gui (fst (run_tool st))) = visible (st_gui st) /\
  modal (st_gui (fst (run_tool st))) = modal (st_gui st) /\
  close_button (st_gui (fst (run_tool st))) = close_button (st_gui st).
Proof.
  destruct (validates (st_scene st)) eqn:Hv.
  - destruct (run_tool_valid st Hv) as (j & c & _ & _ & ->).
    apply (rig_keeps_window j c (log_more st (validation_calls (st_scene st)))).
  - rewrite (run_tool_invalid st Hv). auto.
Qed.

End RunTool.

(* ===================================================================== *)
(** ** The claims *)

Section Claims.
Context {host : Host}.

(** The guard of [run_tool] as written.  Over a selection of named
    objects an edit is sent as soon as [identify_selection] finds some
    joint and some transform; the test on the number of selected objects
    that [update_selection] makes is not repeated here.  Without both, no
    edit is sent and the scene stays as it was. *)
Theorem run_tool_edits_iff_joint_and_transform (st : State host) :
  named_selection (st_scene st) ->
  (existsb is_edit (calls_of run_tool st) = true <->
   (exists j, In j (ls_selection (st_scene st)) /\
              objectType (st_scene st) j = "joint") /\
   (exists c, In c (ls_selection (st_scene st)) /\
              objectType (st_scene st) c = "transform")) /\
  (existsb is_edit (calls_of run_tool st) = false ->
   st_scene (fst (run_tool st)) = st_scene st).
Proof.
  intros Hnamed. rewrite <- (validates_named _ Hnamed).
  destruct (validates (st_scene st)) eqn:Hv.
  - destruct (run_tool_valid_calls st Hv)
      as (c & calls & _ & Hcalls & n & later & _ & -> & _).
    assert (He : existsb is_edit (calls_of run_tool st) = true).
    { rewrite Hcalls, existsb_app. cbn. apply orb_true_r. }
    rewrite He. split; [tauto | discriminate].
  - rewrite (run_tool_invalid_calls st Hv), (run_tool_invalid st Hv).
    assert (He : existsb is_edit
                   (validation_calls (st_scene st) ++ [CWarning msg_warning])
                 = false).
    { rewrite existsb_app,
        (lookups_existsb _ _ lookup_not_edit
           (validation_calls_lookups (st_scene st))).
      reflexivity. }
    rewrite He. split; [split; discriminate | reflexivity].
Qed.


(** C3.  When the validation fails, [run_tool] sends the host one warning
    and nothing else beyond the validation's own queries, then returns:
    no edit is sent, and the scene and the dialog are as they were. *)
Theorem run_tool_invalid_warns_once (st : State host) :
  validates (st_scene st) = false ->
  snd (run_tool st) = Returned tt /\
  st_scene (fst (run_tool st)) = st_scene st /\
  st_gui (fst (run_tool st)) = st_gui st /\
  calls_of run_tool st =
    validation_calls (st_scene st) ++ [CWarning msg_warning] /\
  filter is_warning (calls_of run_tool st) = [CWarning msg_warning] /\
  filter is_edit (calls_of run_tool st) = [].
Proof.
  intros Hv. rewrite (run_tool_invalid_calls st Hv), (run_tool_invalid st Hv).
  pose proof (validation_calls_lookups (st_scene st)) as Hq.
  repeat split.
  - rewrite filter_app, (lookups_filter _ _ lookup_not_warning Hq). reflexivity.
  - rewrite filter_app, (lookups_filter _ _ lookup_not_edit Hq). reflexivity.
Qed.

(** C4 (amended).  On a valid selection a run of [run_tool] that returns
    makes, behind the selection query and the validation, nine scene-editing
    host calls in a fixed order, to seven distinct host functions, and
    after them only the selection queries of [update_selection]. *)
Theorem run_tool_nine_edit_calls (st : State host) :
  validates (st_scene st) = true ->
  snd (run_tool st) = Returned tt ->
  exists edits after,
    calls_of run_tool st = validation_calls (st_scene st) ++ edits ++ after /\
    List.length edits = 9 /\
    forallb is_edit edits = true /\
    map fn_of edits = rig_calls_fns /\
    distinct_fns [] edits = rig_fns /\
    List.length (distinct_fns [] edits) = 7 /\
    filter is_edit (calls_of run_tool st) = edits /\
    forallb is_lookup after = true.
Proof.
  intros Hv Hret.
  destruct (run_tool_returned_calls st Hv Hret)
    as (j & c & sc' & calls & _ & _ & Hacc & _ & Hcalls).
  exists calls, (update_calls sc').
  pose proof (validation_calls_lookups (st_scene st)) as Hq.
  pose proof (update_calls_lookups sc') as Hu.
  rewrite Hcalls, !filter_app,
    (lookups_filter _ _ lookup_not_edit Hq),
    (lookups_filter _ _ lookup_not_edit Hu), app_nil_r.
  destruct Hacc. repeat split; assumption.
Qed.

(** C5.  The edits of a run of [run_tool] that returns hold exactly three
    constraint operations: a parent constraint, an orient constraint and a
    second parent constraint. *)
Theorem run_tool_three_constraints (st : State host) :
  validates (st_scene st) = true ->
  snd (run_tool st) = Returned tt ->
  List.length (filter is_constraint (calls_of run_tool st)) = 3 /\
  map fn_of (filter is_constraint (calls_of run_tool st)) =
    [FParentConstraint; FOrientConstraint; FParentConstraint].
Proof.
  intros Hv Hret.
  destruct (run_tool_returned_calls st Hv Hret)
    as (j & c & sc' & calls & _ & _ & Hacc & _ & Hcalls).
  pose proof (validation_calls_lookups (st_scene st)) as Hq.
  pose proof (update_calls_lookups sc') as Hu.
  rewrite Hcalls, !filter_app,
    (lookups_filter _ _ lookup_not_constraint Hq),
    (lookups_filter _ _ lookup_not_constraint Hu), app_nil_r.
  destruct Hacc. split; reflexivity.
Qed.

(** C6 (amended).  A run of [run_tool] that returns on a valid selection
    sets the info label to the success message and, through
    [update_selection], the selected-items label and the enabled flag of
    the Run button, both computed from the scene the edits leave; nothing
    else of the dialog changes. *)
Theorem run_tool_updates_labels_and_run_button (st : State host) :
  validates (st_scene st) = true ->
  snd (run_tool st) = Returned tt ->
  st_gui (fst (run_tool st)) =
    update_gui (st_scene (fst (run_tool st)))
      (with_info_label {| label_text := msg_success |} (st_gui st)) /\
  label_text (info_label (st_gui (fst (run_tool st)))) = msg_success /\
  button_enabled (run_button (st_gui (fst (run_tool st)))) =
    ready (st_scene (fst (run_tool st))) /\
  button_text (run_button (st_gui (fst (run_tool st)))) =
    button_text (run_button (st_gui st)) /\
  close_button (st_gui (fst (run_tool st))) = close_button (st_gui st) /\
  parent (st_gui (fst (run_tool st))) = parent (st_gui st) /\
  windowTitle (st_gui (fst (run_tool st))) = windowTitle (st_gui st) /\
  geometry (st_gui (fst (run_tool st))) = geometry (st_gui st) /\
  visible (st_gui (fst (run_tool st))) = visible (st_gui st) /\
  modal (st_gui (fst (run_tool st))) = modal (st_gui st).
Proof.
  intros Hv Hret.
  destruct (run_tool_returned st Hv Hret)
    as (j & c & sc' & calls & _ & _ & _ & ->).
  cbn [fst st_scene st_gui]. unfold update_gui, ready.
  destruct (Nat.eqb (List.length (ls_selection sc')) 2); cbn [negb andb];
    [destruct (validates sc')|]; repeat split.
Qed.

(** C7 (amended).  The tool's GUI is exposed through a modeless dialog,
    a child of the host's main window: [show_tool] builds it and shows it
    with [show], nothing makes it modal, and so, shown, it does not block
    the host; a click on Run leaves it so. *)
Theorem show_tool_shows_modeless_dialog (sc : scene) (log : list HostCall) :
  snd (show_tool sc log) = Returned tt /\
  st_scene (fst (show_tool sc log)) = sc /\
  parent (st_gui (fst (show_tool sc log))) = MayaMainWindow /\
  visible (st_gui (fst (show_tool sc log))) = true /\
  modal (st_gui (fst (show_tool sc log))) = false /\
  blocks_host (st_gui (fst (show_tool sc log))) = false /\
  blocks_host
    (st_gui (fst (click_run_button (fst (show_tool sc log))))) = false.
Proof.
  assert (Hshow : exists g log',
             show_tool sc log =
             ({| st_scene := sc; st_gui := g; st_log := log' |}, Returned tt) /\
             parent g = MayaMainWindow /\ visible g = true /\ modal g = false).
  { unfold show_tool, JointCurveTool_init, init_gui, show, bind, widget.
    cbn [st_scene st_gui st_log]. rewrite update_selection_run.
    cbn [st_scene st_gui st_log]. do 2 eexists. split; [reflexivity|].
    unfold update_gui.
    destruct (Nat.eqb (List.length (ls_selection sc)) 2); cbn [negb];
      [destruct (validates sc)|]; repeat split. }
  destruct Hshow as (g & log' & -> & Hp & Hvis & Hmod).
  cbn [fst snd st_scene st_gui]. unfold blocks_host.
  rewrite Hmod, andb_false_r. repeat split; try assumption.
  unfold click_run_button. cbn [st_gui].
  destruct (button_enabled (run_button g)).
  - match goal with
    | |- context [run_tool ?s] =>
        destruct (run_tool_keeps_window s) as (_ & -> & _)
    end.
    cbn [st_gui]. now rewrite Hmod, andb_false_r.
  - cbn. now rewrite Hmod, andb_false_r.
Qed.

(** C8.  For every selection list, [identify_selection] returns as the
    joint the last element whose host object type is 'joint' and as the
    curve the last element whose host object type is 'transform', [None]
    for each when there is none.  Only the host object type is consulted,
    and elements of any other type do not count: without them the answer
    is the same.  The scene and the dialog are left alone. *)
Theorem identify_selection_last_joint_last_transform
        (sel : list string) (st : State host) :
  exists joint curve,
    snd (identify_selection sel st) = Returned (joint, curve) /\
    is_last_of_type (st_scene st) "joint" sel joint /\
    is_last_of_type (st_scene st) "transform" sel curve /\
    snd (identify_selection
           (filter (fun obj => has_type (st_scene st) "joint" obj
                               || has_type (st_scene st) "transform" obj) sel)
           st) = Returned (joint, curve) /\
    st_scene (fst (identify_selection sel st)) = st_scene st /\
    st_gui (fst (identify_selection sel st)) = st_gui st.
Proof.
  exists (last_of_type (st_scene st) "joint" sel),
         (last_of_type (st_scene st) "transform" sel).
  rewrite !identify_selection_run. cbn [fst snd log_more st_scene st_gui].
  assert (Hspec : forall ty, is_last_of_type (st_scene st) ty sel
                               (last_of_type (st_scene st) ty sel)).
  { intros ty. unfold is_last_of_type.
    destruct (last_of_type (st_scene st) ty sel) as [obj|] eqn:Hl.
    - now apply last_of_type_split.
    - now apply last_of_type_None. }
  repeat split; try apply Hspec.
  rewrite !last_of_type_filter; [reflexivity| |];
    intros obj Hobj; rewrite Hobj; auto using orb_true_r.
Qed.

(** C9.  After every call to [update_selection] over a selection of named
    objects, the Run button is enabled if and only if the selection has
    exactly two elements and [identify_selection] finds a joint and a curve
    in it (then the two are one joint and one curve); otherwise the button
    is disabled and the selected-items label shows one of the two
    instruction messages. *)
Theorem update_selection_enables_run_iff (st : State host) :
  named_selection (st_scene st) ->
  (button_enabled (run_button (st_gui (fst (update_selection st)))) = true <->
   List.length (ls_selection (st_scene st)) = 2 /\
   exists joint curve,
     snd (identify_selection (ls_selection (st_scene st)) st)
     = Returned (Some joint, Some curve)) /\
  (button_enabled (run_button (st_gui (fst (update_selection st)))) = true ->
   count_of_type (st_scene st) "joint" (ls_selection (st_scene st)) = 1 /\
   count_of_type (st_scene st) "transform" (ls_selection (st_scene st)) = 1) /\
  (button_enabled (run_button (st_gui (fst (update_selection st)))) = false ->
   label_text (selected_label (st_gui (fst (update_selection st))))
     = msg_must_select \/
   label_text (selected_label (st_gui (fst (update_selection st))))
     = msg_must_include).
Proof.
  intros Hnamed.
  rewrite update_selection_run, identify_selection_run.
  cbn [fst snd st_gui]. unfold update_gui.
  assert (Hval : validates (st_scene st) = true <->
                 exists joint curve,
                   Returned (A := option string * option string)
                     (last_of_type (st_scene st) "joint" (ls_selection (st_scene st)),
                      last_of_type (st_scene st) "transform" (ls_selection (st_scene st)))
                   = Returned (Some joint, Some curve)).
  { unfold validates, selected_joint, selected_curve.
    rewrite andb_true_iff, !truthy_Some. split.
    - intros [(j & -> & _) (c & -> & _)]. now exists j, c.
    - intros (j & c & [= Hj Hc]). rewrite Hj, Hc.
      unfold named_selection in Hnamed. rewrite Forall_forall in Hnamed.
      apply last_of_type_In in Hj, Hc.
      split; [exists j | exists c]; split; try reflexivity;
        apply Hnamed; tauto. }
  destruct (Nat.eqb (List.length (ls_selection (st_scene st))) 2) eqn:Hlen;
    cbn [negb].
  - apply Nat.eqb_eq in Hlen.
    destruct (validates (st_scene st)) eqn:Hv; cbn.
    + repeat split; try tauto; try discriminate.
      * destruct (proj1 Hval eq_refl) as (j & c & [= Hj Hc]).
        now apply (two_selected_one_each _ _ j c).
      * destruct (proj1 Hval eq_refl) as (j & c & [= Hj Hc]).
        now apply (two_selected_one_each _ _ j c).
    + repeat split; try discriminate; auto.
      intros [_ Hex]. now apply Hval.
  - apply Nat.eqb_neq in Hlen. cbn.
    repeat split; try discriminate; auto. tauto.
Qed.

(** C10.  A run of [run_tool] that returns asks the host to rename the
    curve to the joint's name with every occurrence of 'BIND' replaced by
    'CC', and to group the renamed curve under the name the host gave it
    with every occurrence of 'CC' replaced by 'cc_GRP'; these are its only
    rename and group calls.  For a joint name without 'BIND' the new name
    asked for is the joint's own name. *)
Theorem run_tool_names_controller_and_group (st : State host) :
  validates (st_scene st) = true ->
  snd (run_tool st) = Returned tt ->
  exists joint curve ctrl_name sc_before sc_after,
    selected_joint (st_scene st) = Some joint /\
    selected_curve (st_scene st) = Some curve /\
    rename sc_before curve (str_replace joint "BIND" "CC")
      = (sc_after, Some ctrl_name) /\
    (forall obj name,
        In (CRename obj name) (calls_of run_tool st) <->
        obj = curve /\ name = str_replace joint "BIND" "CC") /\
    (forall obj name,
        In (CGroup obj name) (calls_of run_tool st) <->
        obj = ctrl_name /\ name = str_replace ctrl_name "CC" "cc_GRP") /\
    Replaced "BIND" "CC" joint (str_replace joint "BIND" "CC") /\
    Replaced "CC" "cc_GRP" ctrl_name (str_replace ctrl_name "CC" "cc_GRP") /\
    (~ occurs "BIND" joint -> In (CRename curve joint) (calls_of run_tool st)).
Proof.
  intros Hv Hret.
  destruct (run_tool_returned_calls st Hv Hret)
    as (j & c & sc' & calls & Hj & Hc & Hacc & _ & Hcalls).
  pose proof (validation_calls_lookups (st_scene st)) as Hq.
  pose proof (update_calls_lookups sc') as Hu.
  rewrite forallb_forall in Hq, Hu.
  assert (Hin : forall call, is_lookup call = false ->
                  (In call (calls_of run_tool st) <-> In call calls)).
  { intros call Hcall. rewrite Hcalls, !in_app_iff. split; [|tauto].
    intros [H | [H | H]]; [apply Hq in H | assumption | apply Hu in H];
      rewrite H in Hcall; discriminate. }
  destruct Hacc as [sc1 sc2 sc3 sc4 sc5 sc6 sc7 sc8 sc9
                      ctrl_name grp_name result oriented parent_joint others
                      constrained E1 E2 E3 E4 E5 E6 E7 E8 E9].
  exists j, c, ctrl_name, sc2, sc3.
  assert (Hren : forall obj name,
             In (CRename obj name) (calls_of run_tool st) <->
             obj = c /\ name = str_replace j "BIND" "CC").
  { intros obj name. rewrite (Hin (CRename obj name) eq_refl). cbn [In].
    split.
    - intros H. repeat (destruct H as [H | H]; try discriminate H).
      + now injection H as <- <-.
      + destruct H.
    - intros [-> ->]. tauto. }
  assert (Hgrp : forall obj name,
             In (CGroup obj name) (calls_of run_tool st) <->
             obj = ctrl_name /\ name = str_replace ctrl_name "CC" "cc_GRP").
  { intros obj name. rewrite (Hin (CGroup obj name) eq_refl). cbn [In].
    split.
    - intros H. repeat (destruct H as [H | H]; try discriminate H).
      + now injection H as <- <-.
      + destruct H.
    - intros [-> ->]. tauto. }
  split; [exact Hj|]. split; [exact Hc|]. split; [exact E3|].
  split; [exact Hren|]. split; [exact Hgrp|].
  split; [apply str_replace_Replaced; discriminate|].
  split; [apply str_replace_Replaced; discriminate|].
  intros Hno. apply Hren. split; [reflexivity|].
  symmetry. now apply str_replace_absent.
Qed.

End Claims.

(* ===================================================================== *)
(** ** The claims on the arm scene *)

Lemma arm_selected_named : named_selection (st_scene Flat.arm_selected).
Proof. repeat constructor; discriminate. Defined.

Lemma run_tool_edits_iff_joint_and_transform_witness :
  existsb is_edit (calls_of run_tool Flat.arm_selected) = true <->
  (exists j, In j (ls_selection (st_scene Flat.arm_selected)) /\
             objectType (st_scene Flat.arm_selected) j = "joint") /\
  (exists c, In c (ls_selection (st_scene Flat.arm_selected)) /\
             objectType (st_scene Flat.arm_selected) c = "transform").
Proof.
  exact (proj1 (run_tool_edits_iff_joint_and_transform
                  Flat.arm_selected arm_selected_named)).
Defined.

(** C1.  The code departs from the claim.  The dialog was opened on the
    elbow joint and the curve, the shoulder joint was then added to the
    selection, and Run is still enabled.  The selection holds two joints,
    not exactly one; [update_selection] over this very selection asks for
    one joint and one curve and disables Run.  A click on Run all the same
    reaches [run_tool], which does not repeat the test on the number of
    selected objects: it sends all nine edits and rigs the curve to the
    shoulder, the joint selected last. *)
Lemma run_tool_edits_with_two_joints :
  ls_selection (st_scene Flat.arm_crowded) =
    ["elbow_BIND"; "shoulder_BIND"; "curve1"] /\
  count_of_type (st_scene Flat.arm_crowded) "joint"
    (ls_selection (st_scene Flat.arm_crowded)) = 2 /\
  ~ (count_of_type (st_scene Flat.arm_crowded) "joint"
       (ls_selection (st_scene Flat.arm_crowded)) = 1 /\
     count_of_type (st_scene Flat.arm_crowded) "transform"
       (ls_selection (st_scene Flat.arm_crowded)) = 1) /\
  button_enabled
    (run_button (st_gui (fst (update_selection Flat.arm_crowded)))) = false /\
  label_text
    (selected_label (st_gui (fst (update_selection Flat.arm_crowded))))
    = msg_must_select /\
  button_enabled (run_button (st_gui Flat.arm_crowded)) = true /\
  click_run_button Flat.arm_crowded = run_tool Flat.arm_crowded /\
  snd (run_tool Flat.arm_crowded) = Returned tt /\
  existsb is_edit (calls_of run_tool Flat.arm_crowded) = true /\
  filter is_edit (calls_of run_tool Flat.arm_crowded) =
    [CMakeIdentity "curve1"; CDeleteHistory "curve1";
     CRename "curve1" "shoulder_CC";
     CGroup "shoulder_CC" "shoulder_cc_GRP";
     CParentConstraint "shoulder_BIND" "shoulder_cc_GRP" false;
     CDelete ["shoulder_cc_GRP_parentConstraint1"];
     COrientConstraint "shoulder_CC" "shoulder_BIND" false;
     CPickWalkUp "shoulder_BIND";
     CParentConstraint "shoulder_BIND" "shoulder_cc_GRP" true].
Proof.
  repeat split; try reflexivity. intros [H _]. vm_compute in H. discriminate H.
Qed.



Lemma run_tool_invalid_warns_once_witness :
  validates (st_scene Flat.arm_no_curve) = false /\
  calls_of run_tool Flat.arm_no_curve =
    validation_calls (st_scene Flat.arm_no_curve) ++ [CWarning msg_warning].
Proof.
  split; [reflexivity|].
  apply (run_tool_invalid_warns_once Flat.arm_no_curve eq_refl).
Defined.

Lemma run_tool_nine_edit_calls_witness :
  validates (st_scene Flat.arm_selected) = true /\
  snd (run_tool Flat.arm_selected) = Returned tt /\
  exists edits after,
    calls_of run_tool Flat.arm_selected =
      validation_calls (st_scene Flat.arm_selected) ++ edits ++ after /\
    List.length edits = 9.
Proof.
  split; [reflexivity|]. split; [reflexivity|].
  destruct (run_tool_nine_edit_calls Flat.arm_selected eq_refl eq_refl)
    as (edits & after & Hcalls & Hlen & _).
  exists edits, after. split; assumption.
Defined.

(** C4, as stated, fails: behind the validation the run makes nine edit
    calls and one more query, not six to eight calls. *)
Lemma run_tool_more_than_eight_calls :
  validates (st_scene Flat.arm_selected) = true /\
  snd (run_tool Flat.arm_selected) = Returned tt /\
  List.length (filter is_edit (calls_of run_tool Flat.arm_selected)) = 9 /\
  List.length
    (skipn (List.length (validation_calls (st_scene Flat.arm_selected)))
           (calls_of run_tool Flat.arm_selected)) = 10 /\
  ~ (6 <= List.length (filter is_edit (calls_of run_tool Flat.arm_selected))
     <= 8).
Proof.
  repeat split; try reflexivity.
  change (List.length (filter is_edit (calls_of run_tool Flat.arm_selected)))
    with 9.
  lia.
Qed.

Lemma run_tool_three_constraints_witness :
  List.length (filter is_constraint (calls_of run_tool Flat.arm_selected)) = 3.
Proof.
  apply (run_tool_three_constraints Flat.arm_selected); reflexivity.
Defined.

Lemma run_tool_updates_labels_and_run_button_witness :
  validates (st_scene Flat.arm_selected) = true /\
  snd (run_tool Flat.arm_selected) = Returned tt /\
  close_button (st_gui (fst (run_tool Flat.arm_selected))) =
    close_button (st_gui Flat.arm_selected).
Proof.
  split; [reflexivity|]. split; [reflexivity|].
  apply (run_tool_updates_labels_and_run_button Flat.arm_selected);
    reflexivity.
Defined.

(** C6, as stated, fails: the run that returns also disables the Run
    button, the walk to the parent joint having changed the selection. *)
Lemma run_tool_disables_run_button :
  validates (st_scene Flat.arm_selected) = true /\
  snd (run_tool Flat.arm_selected) = Returned tt /\
  button_enabled (run_button (st_gui Flat.arm_selected)) = true /\
  button_enabled (run_button (st_gui (fst (run_tool Flat.arm_selected))))
    = false /\
  run_button (st_gui (fst (run_tool Flat.arm_selected)))
    <> run_button (st_gui Flat.arm_selected).
Proof.
  repeat split; try reflexivity. vm_compute. discriminate.
Qed.

(** C7, as stated, fails: the dialog shown by [show_tool] is visible and
    does not block the host. *)
Lemma show_tool_dialog_does_not_block :
  visible (st_gui (fst (show_tool (host := Flat.host)
                          (Flat.arm_scene ["elbow_BIND"; "curve1"]) [])))
    = true /\
  blocks_host (st_gui (fst (show_tool (host := Flat.host)
                              (Flat.arm_scene ["elbow_BIND"; "curve1"]) [])))
    <> true.
Proof.
  split; [reflexivity|]. vm_compute. discriminate.
Qed.

Lemma update_selection_enables_run_iff_witness :
  button_enabled
    (run_button (st_gui (fst (update_selection Flat.arm_selected)))) = true <->
  List.length (ls_selection (st_scene Flat.arm_selected)) = 2 /\
  exists joint curve,
    snd (identify_selection (ls_selection (st_scene Flat.arm_selected))
           Flat.arm_selected)
    = Returned (Some joint, Some curve).
Proof.
  exact (proj1 (update_selection_enables_run_iff
                  Flat.arm_selected arm_selected_named)).
Defined.

Lemma run_tool_names_controller_and_group_witness :
  In (CRename "curve1" "elbow_CC") (calls_of run_tool Flat.arm_selected) /\
  exists ctrl_name,
    In (CGroup ctrl_name (str_replace ctrl_name "CC" "cc_GRP"))
       (calls_of run_tool Flat.arm_selected).
Proof.
  destruct (run_tool_names_controller_and_group Flat.arm_selected
              eq_refl eq_refl)
    as (joint & curve & ctrl_name & sc_before & sc_after
        & Hj & Hc & Hren & Hrename & Hgroup & _).
  injection Hj as <-. injection Hc as <-.
  split.
  - apply Hrename. split; reflexivity.
  - exists ctrl_name. apply Hgroup. split; reflexivity.
Defined.

(* ===================================================================== *)
(** ** The dialog between clicks *)

Section Dialog.
Context {host : Host}.

Lemma count_one_exists (sc : scene) (ty : string) (sel : list string) :
  count_of_type sc ty sel = 1 ->
  exists obj, In obj sel /\ objectType sc obj = ty.
Proof.
  unfold count_of_type. intros Hcount.
  destruct (filter (has_type sc ty) sel) as [|obj rest] eqn:Hf; [discriminate|].
  assert (Hin : In obj (filter (has_type sc ty) sel)) by (rewrite Hf; now left).
  apply filter_In in Hin. destruct Hin as [Hin Hty].
  exists obj. split; [assumption | now apply String.eqb_eq].
Qed.

Lemma ready_iff_one_each (sc : scene) :
  named_selection sc ->
  ready sc = true <-> one_joint_one_transform sc.
Proof.
  intros Hnamed. unfold ready, one_joint_one_transform.
  rewrite andb_true_iff, Nat.eqb_eq. split.
  - intros [Hlen Hv]. split; [assumption|].
    unfold validates in Hv. apply andb_true_iff in Hv. destruct Hv as [Hj Hc].
    apply truthy_Some in Hj, Hc.
    destruct Hj as (j & Hj & _), Hc as (c & Hc & _).
    now apply (two_selected_one_each sc _ j c).
  - intros (Hlen & Hj & Hc). split; [assumption|].
    apply (validates_named sc Hnamed).
    split; now apply count_one_exists.
Qed.

Lemma update_gui_enabled (sc : scene) (g : JointCurveTool) :
  button_enabled (run_button (update_gui sc g)) = ready sc.
Proof.
  unfold update_gui, ready.
  destruct (Nat.eqb (List.length (ls_selection sc)) 2); cbn [negb andb];
    [destruct (validates sc)|]; reflexivity.
Qed.

(** [update_selection] changes the selected-items label and the enabled
    flag of the Run button, nothing else of the dialog. *)
Lemma update_gui_keeps (sc : scene) (g : JointCurveTool) :
  info_label (update_gui sc g) = info_label g /\
  button_text (run_button (update_gui sc g)) = button_text (run_button g) /\
  close_button (update_gui sc g) = close_button g /\
  parent (update_gui sc g) = parent g /\
  windowTitle (update_gui sc g) = windowTitle g /\
  geometry (update_gui sc g) = geometry g /\
  visible (update_gui sc g) = visible g /\
  modal (update_gui sc g) = modal g.
Proof.
  unfold update_gui.
  destruct (Nat.eqb (List.length (ls_selection sc)) 2); cbn [negb];
    [destruct (validates sc)|]; repeat split.
Qed.

Lemma update_selection_fresh (st : State host) :
  fresh (fst (update_selection st)) /\
  st_scene (fst (update_selection st)) = st_scene st.
Proof.
  rewrite update_selection_run. unfold fresh. cbn [fst st_scene st_gui].
  split; [apply update_gui_enabled | reflexivity].
Qed.

(** The dialog [show_tool] leaves, and the calls it made on the way. *)
Lemma show_tool_run (sc : scene) (log : list HostCall) :
  show_tool sc log =
  ({| st_scene := sc;
      st_gui :=
        with_visible true
          (update_gui sc
             (with_close_button {| button_text := "Close"; button_enabled := true |}
             (with_run_button {| button_text := "Run Tool"; button_enabled := true |}
             (with_selected_label {| label_text := "No selection made." |}
             (with_info_label {| label_text := "Select one joint and one curve." |}
             (with_geometry (300, 300, 350, 200)%Z
             (with_windowTitle "Joint-Curve Tool"
                (QDialog_new get_maya_window))))))));
      st_log := log ++ update_calls sc |},
   Returned tt).
Proof.
  unfold show_tool, JointCurveTool_init, init_gui, show, bind, widget.
  cbn [st_scene st_gui st_log]. rewrite update_selection_run.
  reflexivity.
Qed.

Lemma show_tool_fresh (sc : scene) (log : list HostCall) :
  fresh (fst (show_tool sc log)) /\ st_scene (fst (show_tool sc log)) = sc.
Proof.
  rewrite show_tool_run. unfold fresh. cbn [fst st_scene st_gui].
  split; [|reflexivity].
  cbn [with_visible run_button]. apply update_gui_enabled.
Qed.

Lemma run_tool_returned_fresh (st : State host) :
  validates (st_scene st) = true ->
  snd (run_tool st) = Returned tt ->
  fresh (fst (run_tool st)).
Proof.
  intros Hv Hret.
  destruct (run_tool_returned st Hv Hret) as (j & c & sc' & calls & _ & _ & _ & ->).
  unfold fresh. cbn [fst st_scene st_gui]. apply update_gui_enabled.
Qed.

Lemma skipn_all_log (l : list HostCall) : skipn (List.length l) l = [].
Proof. induction l as [|x l IH]; [reflexivity | exact IH]. Qed.

(** Behind a dialog that is fresh, a click on Run sends edits exactly when
    one joint and one transform, and nothing else, are selected. *)
Lemma click_fresh (st : State host) :
  named_selection (st_scene st) ->
  fresh st ->
  existsb is_edit (calls_of click_run_button st) = true <->
  one_joint_one_transform (st_scene st).
Proof.
  intros Hnamed Hfresh. rewrite <- (ready_iff_one_each _ Hnamed).
  unfold fresh in Hfresh. unfold calls_of, click_run_button. rewrite Hfresh.
  destruct (ready (st_scene st)) eqn:Hready.
  - split; [reflexivity | intros _].
    unfold ready in Hready. apply andb_true_iff in Hready.
    destruct Hready as [_ Hv].
    destruct (run_tool_valid_calls st Hv)
      as (c & calls & _ & Hcalls & n & later & _ & -> & _).
    unfold calls_of in Hcalls. rewrite Hcalls, existsb_app. cbn.
    apply orb_true_r.
  - cbn [ret fst]. rewrite skipn_all_log. cbn. split; discriminate.
Qed.

Lemma phases_length (l : list HostCall) :
  List.length (phases l) = List.length (filter is_edit l).
Proof.
  induction l as [|c l IH]; [reflexivity|].
  destruct c; cbn; now rewrite ?IH.
Qed.

Lemma aimed_no_warning (joint curve : string) (l : list HostCall) :
  (forall call, In call l -> is_lookup call = true \/ aimed joint curve call) ->
  filter is_warning l = [].
Proof.
  induction l as [|c l IH]; [reflexivity|]. intros Hall. cbn [filter].
  rewrite IH by (intros call Hin; apply Hall; now right).
  destruct (Hall c (or_introl eq_refl)) as [Hl | Ha];
    destruct c; try reflexivity; try discriminate Hl; destruct Ha.
Qed.

End Dialog.

(* ===================================================================== *)
(** ** Further properties of the module *)

Section Further.
Context {host : Host}.

(** X1.  Behind a dialog that has just been refreshed by
    [update_selection], or just been opened by [show_tool], a click on Run
    sends scene edits exactly when two objects are selected, one of type
    'joint' and one of type 'transform'. *)
Theorem click_behind_refresh_edits_iff_one_each (st : State host) :
  named_selection (st_scene st) ->
  (existsb is_edit (calls_of click_run_button (fst (update_selection st))) = true
   <-> one_joint_one_transform (st_scene st)) /\
  (forall log,
      existsb is_edit
        (calls_of click_run_button (fst (show_tool (st_scene st) log))) = true
      <-> one_joint_one_transform (st_scene st)).
Proof.
  intros Hnamed. split.
  - destruct (update_selection_fresh st) as [Hfresh Hsc].
    pose proof (click_fresh (fst (update_selection st))) as Hclick.
    rewrite Hsc in Hclick. now apply Hclick.
  - intros log. destruct (show_tool_fresh (st_scene st) log) as [Hfresh Hsc].
    pose proof (click_fresh (fst (show_tool (st_scene st) log))) as Hclick.
    rewrite Hsc in Hclick. now apply Hclick.
Qed.

(** X2.  After a run of [run_tool] that returned, a further click on Run
    sends edits exactly when the selection the edits left holds two
    objects, one joint and one transform: the run refreshes the button
    over the scene it leaves. *)
Theorem click_behind_returned_run_edits_iff_one_each (st : State host) :
  validates (st_scene st) = true ->
  snd (run_tool st) = Returned tt ->
  named_selection (st_scene (fst (run_tool st))) ->
  existsb is_edit (calls_of click_run_button (fst (run_tool st))) = true <->
  one_joint_one_transform (st_scene (fst (run_tool st))).
Proof.
  intros Hv Hret Hnamed.
  apply click_fresh; [assumption | now apply run_tool_returned_fresh].
Qed.

(** X3.  The info label comes to read the success message exactly in the
    runs of [run_tool] that pass the validation and return: a failed
    validation or a command that raises never reports success. *)
Theorem run_tool_success_message_iff (st : State host) :
  label_text (info_label (st_gui st)) <> msg_success ->
  label_text (info_label (st_gui (fst (run_tool st)))) = msg_success <->
  validates (st_scene st) = true /\ snd (run_tool st) = Returned tt.
Proof.
  intros Hbefore. split.
  - intros Hafter. destruct (validates (st_scene st)) eqn:Hv.
    + split; [reflexivity|].
      destruct (run_tool_valid st Hv) as (j & c & _ & _ & Hrun).
      rewrite Hrun in Hafter |- *.
      destruct (rig_cases j c (log_more st (validation_calls (st_scene st))))
        as [(sc' & calls & e & Hr & _) | (sc' & calls & _ & Hr)];
        rewrite Hr in Hafter |- *; [|reflexivity].
      cbn [fst st_gui log_more] in Hafter. contradiction.
    + rewrite (run_tool_invalid st Hv) in Hafter.
      cbn [fst st_gui log_more] in Hafter. contradiction.
  - intros [Hv Hret].
    destruct (run_tool_returned st Hv Hret) as (j & c & sc' & calls & _ & _ & _ & ->).
    cbn [fst st_gui].
    destruct (update_gui_keeps sc'
                (with_info_label {| label_text := msg_success |} (st_gui st)))
      as (-> & _).
    reflexivity.
Qed.

(** X4.  When [run_tool] raises, the validation had passed and the freeze
    of the identified curve had been sent; between one and nine edits were
    sent, and the dialog is left exactly as it was, its labels and its Run
    button not refreshed. *)
Theorem run_tool_raised_leaves_dialog (st : State host) (e : PyExn) :
  snd (run_tool st) = Raised e ->
  validates (st_scene st) = true /\
  st_gui (fst (run_tool st)) = st_gui st /\
  exists curve later,
    selected_curve (st_scene st) = Some curve /\
    calls_of run_tool st =
      validation_calls (st_scene st) ++ CMakeIdentity curve :: later /\
    1 <= List.length (filter is_edit (calls_of run_tool st)) <= 9.
Proof.
  intros Hraised. destruct (validates (st_scene st)) eqn:Hv.
  - split; [reflexivity|].
    destruct (run_tool_valid st Hv) as (j & c & _ & Hc & Hrun).
    unfold calls_of. rewrite Hrun in Hraised |- *.
    destruct (rig_cases j c (log_more st (validation_calls (st_scene st))))
      as [(sc' & calls & e' & Hr & n & later & Hn & -> & Hph & Hlen & _)
         | (sc' & calls & _ & Hr)];
      rewrite Hr in Hraised |- *; [|discriminate].
    cbn [fst st_gui st_log log_more]. split; [reflexivity|].
    exists c, later. rewrite <- app_assoc, skipn_log.
    split; [assumption|]. split; [reflexivity|].
    rewrite filter_app,
      (lookups_filter _ _ lookup_not_edit (validation_calls_lookups (st_scene st))).
    cbn [app]. rewrite Hlen. split; [assumption|].
    rewrite <- Hlen, <- phases_length, Hph, length_firstn.
    apply Nat.le_min_r.
  - rewrite (run_tool_invalid st Hv) in Hraised. discriminate.
Qed.

(** X5.  On a valid selection [run_tool] raises [IndexError] exactly when
    the host accepts the first eight commands and answers the walk to the
    parent with an empty list.  The eight edits stay done, the second
    parent constraint is never sent, and the dialog is left as it was. *)
Theorem run_tool_index_error_iff_walk_empty (st : State host) :
  validates (st_scene st) = true ->
  snd (run_tool st) = Raised IndexError <->
  exists joint curve sc' calls,
    selected_joint (st_scene st) = Some joint /\
    selected_curve (st_scene st) = Some curve /\
    rig_walk_empty joint curve (st_scene st) sc' calls /\
    fst (run_tool st) =
      {| st_scene := sc'; st_gui := st_gui st;
         st_log := st_log st ++ validation_calls (st_scene st) ++ calls |}.
Proof.
  intros Hv. destruct (run_tool_valid st Hv) as (j & c & Hj & Hc & Hrun).
  rewrite Hrun. split.
  - intros Hraised.
    destruct (rig j c (log_more st (validation_calls (st_scene st))))
      as [st' o] eqn:Hrig.
    cbn [snd] in Hraised. subst o.
    apply rig_index_error_iff in Hrig. destruct Hrig as (sc' & calls & Hwalk & ->).
    exists j, c, sc', calls. repeat split; try assumption.
    cbn [fst log_more st_scene st_gui st_log]. now rewrite <- app_assoc.
  - intros (j' & c' & sc' & calls & Hj' & Hc' & Hwalk & _).
    rewrite Hj in Hj'. rewrite Hc in Hc'.
    injection Hj' as <-. injection Hc' as <-.
    assert (Hrig : rig j c (log_more st (validation_calls (st_scene st))) =
                   ({| st_scene := sc';
                       st_gui := st_gui st;
                       st_log := (st_log st ++ validation_calls (st_scene st))
                                 ++ calls |},
                    Raised IndexError)).
    { apply rig_index_error_iff. exists sc', calls. split; [exact Hwalk|].
      reflexivity. }
    now rewrite Hrig.
Qed.

(** X6.  On a valid selection [run_tool] returns exactly when the host
    accepts each of the nine commands in turn and answers the walk with at
    least one node. *)
Theorem run_tool_returns_iff_host_accepts (st : State host) :
  validates (st_scene st) = true ->
  snd (run_tool st) = Returned tt <->
  exists joint curve sc' calls,
    selected_joint (st_scene st) = Some joint /\
    selected_curve (st_scene st) = Some curve /\
    rig_accepted joint curve (st_scene st) sc' calls.
Proof.
  intros Hv. split.
  - intros Hret.
    destruct (run_tool_returned st Hv Hret)
      as (j & c & sc' & calls & Hj & Hc & Hacc & _).
    now exists j, c, sc', calls.
  - intros (j' & c' & sc' & calls & Hj' & Hc' & Hacc).
    destruct (run_tool_valid st Hv) as (j & c & Hj & Hc & Hrun).
    rewrite Hj in Hj'. rewrite Hc in Hc'.
    injection Hj' as <-. injection Hc' as <-.
    rewrite Hrun.
    assert (Hrig : exists st',
               rig j c (log_more st (validation_calls (st_scene st))) =
               (st', Returned tt)).
    { eexists. apply rig_returns_iff. exists sc', calls.
      split; [exact Hacc | reflexivity]. }
    destruct Hrig as (st' & ->). reflexivity.
Qed.

(** X7.  Whatever the host answers, no rename that [run_tool] asks for
    carries a name with 'BIND' in it, and no group it asks for carries a
    name with 'CC' in it. *)
Theorem run_tool_requested_names_clear (st : State host) (obj name : string) :
  (In (CRename obj name) (calls_of run_tool st) -> ~ occurs "BIND" name) /\
  (In (CGroup obj name) (calls_of run_tool st) -> ~ occurs "CC" name).
Proof.
  assert (Hcalls : forall call,
             In call (calls_of run_tool st) ->
             is_query call = true \/
             exists j c, aimed j c call).
  { intros call Hin. destruct (validates (st_scene st)) eqn:Hv.
    - destruct (run_tool_valid st Hv) as (j & c & _ & _ & Hrun).
      destruct (rig_calls_aimed j c (log_more st (validation_calls (st_scene st))))
        as (calls & Hlog & Haimed).
      unfold calls_of in Hin. rewrite Hrun, Hlog in Hin.
      cbn [log_more st_log] in Hin. rewrite <- app_assoc, skipn_log in Hin.
      apply in_app_iff in Hin. destruct Hin as [Hin | Hin].
      + left. pose proof (validation_calls_lookups (st_scene st)) as Hq.
        rewrite forallb_forall in Hq. specialize (Hq call Hin).
        now destruct call.
      + destruct (Haimed call Hin) as [Hl | Ha].
        * left. now destruct call.
        * right. now exists j, c.
    - rewrite (run_tool_invalid_calls st Hv) in Hin.
      apply in_app_iff in Hin. left. destruct Hin as [Hin | [<- | []]].
      + pose proof (validation_calls_lookups (st_scene st)) as Hq.
        rewrite forallb_forall in Hq. specialize (Hq call Hin).
        now destruct call.
      + reflexivity. }
  split; intros Hin; destruct (Hcalls _ Hin) as [Hq | (j & c & Ha)];
    try discriminate Hq; unfold aimed in Ha.
  - destruct Ha as [_ ->]. apply str_replace_clears; [discriminate.. | reflexivity].
  - rewrite Ha. apply str_replace_clears; [discriminate.. | reflexivity].
Qed.

(** X8.  In a run of [run_tool] that passed the validation no warning is
    emitted, and every edit is aimed at the identified pair: the freeze,
    the history cleanup and the rename act on the identified curve, the
    walk starts from the identified joint, the orient constraint drives
    that joint and the first parent constraint is driven by it. *)
Theorem run_tool_edits_aimed_at_pair (st : State host) :
  validates (st_scene st) = true ->
  exists joint curve,
    selected_joint (st_scene st) = Some joint /\
    selected_curve (st_scene st) = Some curve /\
    (forall call, In call (calls_of run_tool st) ->
                  is_lookup call = true \/ aimed joint curve call) /\
    filter is_warning (calls_of run_tool st) = [].
Proof.
  intros Hv. destruct (run_tool_valid st Hv) as (j & c & Hj & Hc & Hrun).
  destruct (rig_calls_aimed j c (log_more st (validation_calls (st_scene st))))
    as (calls & Hlog & Haimed).
  assert (Hcalls : calls_of run_tool st = validation_calls (st_scene st) ++ calls).
  { unfold calls_of. rewrite Hrun, Hlog. cbn [log_more st_log].
    rewrite <- app_assoc. apply skipn_log. }
  assert (Hall : forall call, In call (calls_of run_tool st) ->
                   is_lookup call = true \/ aimed j c call).
  { intros call Hin. rewrite Hcalls in Hin. apply in_app_iff in Hin.
    destruct Hin as [Hin | Hin]; [left | now apply Haimed].
    pose proof (validation_calls_lookups (st_scene st)) as Hq.
    rewrite forallb_forall in Hq. now apply Hq. }
  exists j, c. repeat split; try assumption.
  now apply (aimed_no_warning j c).
Qed.

(** X9.  One pass of [identify_selection] asks the host for the type of
    each element once if it is a joint and twice otherwise, and of nothing
    else: over [n] elements, [k] of them joints, it makes [2n - k]
    queries. *)
Theorem identify_selection_query_count (sel : list string) (st : State host) :
  List.length (calls_of (identify_selection sel) st) =
    2 * List.length sel - count_of_type (st_scene st) "joint" sel /\
  (forall call, In call (calls_of (identify_selection sel) st) ->
                exists obj, call = CObjectType obj /\ In obj sel).
Proof.
  unfold calls_of. rewrite identify_selection_run.
  cbn [fst log_more st_log]. rewrite skipn_log.
  unfold identify_calls, count_of_type. split.
  - induction sel as [|obj rest IH]; [reflexivity|].
    cbn [flat_map filter]. rewrite length_app, IH.
    assert (Hle : List.length (filter (has_type (st_scene st) "joint") rest)
                  <= List.length rest) by apply filter_length_le.
    destruct (has_type (st_scene st) "joint" obj); cbn [List.length]; lia.
  - intros call Hin. apply in_flat_map in Hin.
    destruct Hin as (obj & Hobj & Hin). exists obj. split; [|assumption].
    destruct (has_type (st_scene st) "joint" obj);
      cbn [In] in Hin; intuition congruence.
Qed.

(** X10.  Over a selection made of two parts, [identify_selection]
    answers with what it finds in the later part and falls back to the
    earlier part only for what the later part lacks: the object selected
    last wins. *)
Theorem identify_selection_later_wins (before after : list string)
        (st : State host) :
  exists j1 c1 j2 c2,
    snd (identify_selection before st) = Returned (j1, c1) /\
    snd (identify_selection after st) = Returned (j2, c2) /\
    snd (identify_selection (before ++ after) st) =
      Returned (match j2 with Some _ => j2 | None => j1 end,
                match c2 with Some _ => c2 | None => c1 end).
Proof.
  exists (last_of_type (st_scene st) "joint" before),
         (last_of_type (st_scene st) "transform" before),
         (last_of_type (st_scene st) "joint" after),
         (last_of_type (st_scene st) "transform" after).
  rewrite !identify_selection_run. cbn [snd].
  assert (Happ : forall ty,
             last_of_type (st_scene st) ty (before ++ after) =
             match last_of_type (st_scene st) ty after with
             | Some x => Some x
             | None => last_of_type (st_scene st) ty before
             end).
  { intros ty. induction before as [|x before IH]; cbn [app last_of_type].
    - now destruct (last_of_type (st_scene st) ty after).
    - rewrite IH. now destruct (last_of_type (st_scene st) ty after). }
  rewrite !Happ. repeat split.
  now destruct (last_of_type (st_scene st) "joint" after),
               (last_of_type (st_scene st) "transform" after).
Qed.

(** X11.  [update_selection] always returns and leaves the scene alone;
    of the dialog it changes the selected-items label and the enabled flag
    of the Run button and nothing else; and a second call right behind the
    first changes nothing more. *)
Theorem update_selection_idempotent (st : State host) :
  snd (update_selection st) = Returned tt /\
  st_scene (fst (update_selection st)) = st_scene st /\
  st_gui (fst (update_selection (fst (update_selection st)))) =
    st_gui (fst (update_selection st)) /\
  info_label (st_gui (fst (update_selection st))) = info_label (st_gui st) /\
  button_text (run_button (st_gui (fst (update_selection st)))) =
    button_text (run_button (st_gui st)) /\
  close_button (st_gui (fst (update_selection st))) = close_button (st_gui st) /\
  windowTitle (st_gui (fst (update_selection st))) = windowTitle (st_gui st) /\
  geometry (st_gui (fst (update_selection st))) = geometry (st_gui st) /\
  visible (st_gui (fst (update_selection st))) = visible (st_gui st) /\
  modal (st_gui (fst (update_selection st))) = modal (st_gui st).
Proof.
  rewrite !update_selection_run. cbn [fst snd st_scene st_gui].
  destruct (update_gui_keeps (st_scene st) (st_gui st))
    as (Hi & Hb & Hc & _ & Hw & Hg & Hv & Hm).
  repeat split; try assumption.
  unfold update_gui.
  destruct (Nat.eqb (List.length (ls_selection (st_scene st))) 2); cbn [negb];
    [destruct (validates (st_scene st))|]; reflexivity.
Qed.

(** X12.  Whenever [update_selection] leaves the Run button enabled, the
    selection is one joint and one transform, in either order, and the
    selected-items label names the joint first and the curve second,
    whichever was selected first. *)
Theorem update_selection_label_names_pair (st : State host) :
  button_enabled (run_button (st_gui (fst (update_selection st)))) = true ->
  exists joint curve,
    (ls_selection (st_scene st) = [joint; curve] \/
     ls_selection (st_scene st) = [curve; joint]) /\
    objectType (st_scene st) joint = "joint" /\
    objectType (st_scene st) curve = "transform" /\
    label_text (selected_label (st_gui (fst (update_selection st)))) =
      msg_selected joint curve.
Proof.
  rewrite update_selection_run. cbn [fst st_gui].
  rewrite update_gui_enabled. unfold ready, update_gui. intros Hready.
  apply andb_true_iff in Hready. destruct Hready as [Hlen Hv].
  rewrite Hlen, Hv. cbn [negb]. apply Nat.eqb_eq in Hlen.
  unfold validates in Hv. apply andb_true_iff in Hv. destruct Hv as [Hj Hc].
  apply truthy_Some in Hj, Hc.
  destruct Hj as (j & Hj & _), Hc as (c & Hc & _).
  exists j, c. rewrite Hj, Hc. cbn [format].
  pose proof (last_of_type_In _ _ _ _ Hj) as [_ Hjt].
  pose proof (last_of_type_In _ _ _ _ Hc) as [_ Hct].
  repeat split; try assumption.
  unfold selected_joint, selected_curve in Hj, Hc.
  destruct (ls_selection (st_scene st)) as [|a [|b [|x rest]]];
    try discriminate Hlen.
  cbn [last_of_type] in Hj, Hc.
  destruct (has_type (st_scene st) "joint" b) eqn:Jb.
  - rewrite (joint_not_transform _ _ Jb) in Hc.
    injection Hj as <-.
    destruct (has_type (st_scene st) "transform" a); [|discriminate].
    injection Hc as <-. now right.
  - destruct (has_type (st_scene st) "joint" a) eqn:Ja; [|discriminate].
    injection Hj as <-. rewrite (joint_not_transform _ _ Ja) in Hc.
    destruct (has_type (st_scene st) "transform" b); [|discriminate].
    injection Hc as <-. now left.
Qed.

(** X13.  [show_tool] always returns, sends the host nothing but the
    queries of one [update_selection], and leaves the scene alone.  The
    dialog it opens carries the title, the geometry, the info text and the
    button texts of the source, an enabled Close button, and a Run button
    enabled exactly when two objects are selected and a joint and a curve
    are identified; the placeholder 'No selection made.' is never what it
    shows. *)
Theorem show_tool_opens_fresh_dialog (sc : scene) (log : list HostCall) :
  snd (show_tool sc log) = Returned tt /\
  st_scene (fst (show_tool sc log)) = sc /\
  st_log (fst (show_tool sc log)) = log ++ update_calls sc /\
  existsb is_edit (update_calls sc) = false /\
  windowTitle (st_gui (fst (show_tool sc log))) = "Joint-Curve Tool" /\
  geometry (st_gui (fst (show_tool sc log))) = (300, 300, 350, 200)%Z /\
  label_text (info_label (st_gui (fst (show_tool sc log)))) =
    "Select one joint and one curve." /\
  button_text (run_button (st_gui (fst (show_tool sc log)))) = "Run Tool" /\
  close_button (st_gui (fst (show_tool sc log))) =
    {| button_text := "Close"; button_enabled := true |} /\
  button_enabled (run_button (st_gui (fst (show_tool sc log)))) = ready sc /\
  label_text (selected_label (st_gui (fst (show_tool sc log)))) <>
    "No selection made.".
Proof.
  rewrite show_tool_run. cbn [fst snd st_scene st_gui st_log].
  split; [reflexivity|]. split; [reflexivity|]. split; [reflexivity|].
  split; [apply (lookups_existsb _ _ lookup_not_edit), update_calls_lookups|].
  unfold update_gui, ready.
  destruct (Nat.eqb (List.length (ls_selection sc)) 2); cbn [negb andb];
    [destruct (validates sc)|]; repeat split; cbn; discriminate.
Qed.

(** X14.  The Close button is enabled in the dialog [show_tool] opens and
    no click on Run disables it, whatever the run does: a click on Close
    then hides the dialog, returns, and touches neither the scene nor the
    log nor the labels. *)
Theorem close_click_hides_dialog (sc : scene) (log : list HostCall) :
  let st := fst (click_run_button (fst (show_tool sc log))) in
    snd (click_close_button st) = Returned tt /\
    visible (st_gui (fst (click_close_button st))) = false /\
    st_scene (fst (click_close_button st)) = st_scene st /\
    st_log (fst (click_close_button st)) = st_log st /\
    info_label (st_gui (fst (click_close_button st))) = info_label (st_gui st) /\
    selected_label (st_gui (fst (click_close_button st))) =
      selected_label (st_gui st) /\
    run_button (st_gui (fst (click_close_button st))) = run_button (st_gui st).
Proof.
  cbv zeta.
  assert (Hclose : button_enabled
                     (close_button
                        (st_gui (fst (click_run_button (fst (show_tool sc log))))))
                   = true).
  { unfold click_run_button.
    destruct (button_enabled (run_button (st_gui (fst (show_tool sc log))))).
    - destruct (run_tool_keeps_window (fst (show_tool sc log))) as (_ & _ & ->).
      now rewrite show_tool_run; cbn;
        destruct (update_gui_keeps sc
          (with_close_button {| button_text := "Close"; button_enabled := true |}
          (with_run_button {| button_text := "Run Tool"; button_enabled := true |}
          (with_selected_label {| label_text := "No selection made." |}
          (with_info_label {| label_text := "Select one joint and one curve." |}
          (with_geometry (300, 300, 350, 200)%Z
          (with_windowTitle "Joint-Curve Tool"
             (QDialog_new get_maya_window)))))))) as (_ & _ & -> & _).
    - now rewrite show_tool_run; cbn;
        destruct (update_gui_keeps sc
          (with_close_button {| button_text := "Close"; button_enabled := true |}
          (with_run_button {| button_text := "Run Tool"; button_enabled := true |}
          (with_selected_label {| label_text := "No selection made." |}
          (with_info_label {| label_text := "Select one joint and one curve." |}
          (with_geometry (300, 300, 350, 200)%Z
          (with_windowTitle "Joint-Curve Tool"
             (QDialog_new get_maya_window)))))))) as (_ & _ & -> & _). }
  unfold click_close_button. rewrite Hclose.
  unfold close, widget. cbn. repeat split.
Qed.

End Further.

(* ===================================================================== *)
(** ** The further properties on the arm scene *)

Lemma click_behind_refresh_edits_iff_one_each_witness :
  existsb is_edit
    (calls_of click_run_button (fst (update_selection Flat.arm_selected))) = true
  <-> one_joint_one_transform (st_scene Flat.arm_selected).
Proof.
  exact (proj1 (click_behind_refresh_edits_iff_one_each
                  Flat.arm_selected arm_selected_named)).
Defined.

Lemma click_behind_returned_run_edits_iff_one_each_witness :
  named_selection (st_scene (fst (run_tool Flat.arm_selected))) /\
  (existsb is_edit
     (calls_of click_run_button (fst (run_tool Flat.arm_selected))) = true <->
   one_joint_one_transform (st_scene (fst (run_tool Flat.arm_selected)))).
Proof.
  assert (Hnamed : named_selection (st_scene (fst (run_tool Flat.arm_selected)))).
  { change (Forall (fun n => n <> "") ["shoulder_BIND"]).
    repeat constructor. discriminate. }
  split; [exact Hnamed|].
  exact (click_behind_returned_run_edits_iff_one_each
           Flat.arm_selected eq_refl eq_refl Hnamed).
Defined.

Lemma run_tool_success_message_iff_witness :
  label_text (info_label (st_gui (fst (run_tool Flat.arm_selected))))
    = msg_success.
Proof.
  apply (run_tool_success_message_iff Flat.arm_selected).
  - discriminate.
  - split; reflexivity.
Defined.

Lemma run_tool_raised_leaves_dialog_witness :
  snd (run_tool Flat.lost_selected) = Raised IndexError /\
  st_gui (fst (run_tool Flat.lost_selected)) = st_gui Flat.lost_selected.
Proof.
  split; [reflexivity|].
  apply (run_tool_raised_leaves_dialog Flat.lost_selected IndexError).
  reflexivity.
Defined.

Lemma run_tool_index_error_iff_walk_empty_witness :
  exists joint curve sc' calls,
    selected_joint (st_scene Flat.lost_selected) = Some joint /\
    selected_curve (st_scene Flat.lost_selected) = Some curve /\
    rig_walk_empty joint curve (st_scene Flat.lost_selected) sc' calls /\
    fst (run_tool Flat.lost_selected) =
      {| st_scene := sc'; st_gui := st_gui Flat.lost_selected;
         st_log := st_log Flat.lost_selected
                   ++ validation_calls (st_scene Flat.lost_selected) ++ calls |}.
Proof.
  apply (proj1 (run_tool_index_error_iff_walk_empty Flat.lost_selected eq_refl)).
  reflexivity.
Defined.

Lemma run_tool_returns_iff_host_accepts_witness :
  exists joint curve sc' calls,
    selected_joint (st_scene Flat.arm_selected) = Some joint /\
    selected_curve (st_scene Flat.arm_selected) = Some curve /\
    rig_accepted joint curve (st_scene Flat.arm_selected) sc' calls.
Proof.
  apply (proj1 (run_tool_returns_iff_host_accepts Flat.arm_selected eq_refl)).
  reflexivity.
Defined.

Lemma run_tool_edits_aimed_at_pair_witness :
  filter is_warning (calls_of run_tool Flat.arm_selected) = [].
Proof.
  destruct (run_tool_edits_aimed_at_pair Flat.arm_selected eq_refl)
    as (joint & curve & _ & _ & _ & Hnone).
  exact Hnone.
Defined.

Lemma update_selection_label_names_pair_witness :
  exists joint curve,
    (ls_selection (st_scene Flat.arm_reversed) = [joint; curve] \/
     ls_selection (st_scene Flat.arm_reversed) = [curve; joint]) /\
    objectType (st_scene Flat.arm_reversed) joint = "joint" /\
    objectType (st_scene Flat.arm_reversed) curve = "transform" /\
    label_text
      (selected_label (st_gui (fst (update_selection Flat.arm_reversed)))) =
      msg_selected joint curve.
Proof.
  apply (update_selection_label_names_pair Flat.arm_reversed). reflexivity.
Defined.
